(** * task-api: the task service, its storage gateway and its handlers

    A shallow embedding of [internal/models], [internal/repository],
    [internal/service] and the status mapping of [internal/handlers],
    followed by the properties of the service contract. *)

From stdpp Require Import base option list gmap strings pretty sorting.
From Stdlib Require Import ZArith Lia.

Local Open Scope Z_scope.

(** ** internal/models/task.go *)

Module models.

(** [time.Time] is an instant of the store's clock; [0] is the zero value
    of a field that was never assigned. *)
Definition Time := Z.

Record Task := mkTask {
  ID : Z;
  Title : string;
  Description : string;
  Status : string;
  CreatedAt : Time;
  UpdatedAt : Time
}.

Module CreateTaskRequest.
Record t := mk { Title : string; Description : string }.
End CreateTaskRequest.

Module UpdateTaskRequest.
Record t := mk { Title : string; Description : string; Status : string }.
End UpdateTaskRequest.

(** Assignments through the [*Task] pointer, one per field the code writes. *)
Definition set_ID (task : Task) (v : Z) : Task :=
  mkTask v (Title task) (Description task) (Status task)
         (CreatedAt task) (UpdatedAt task).
Definition set_Title (task : Task) (v : string) : Task :=
  mkTask (ID task) v (Description task) (Status task)
         (CreatedAt task) (UpdatedAt task).
Definition set_Description (task : Task) (v : string) : Task :=
  mkTask (ID task) (Title task) v (Status task)
         (CreatedAt task) (UpdatedAt task).
Definition set_Status (task : Task) (v : string) : Task :=
  mkTask (ID task) (Title task) (Description task) v
         (CreatedAt task) (UpdatedAt task).
Definition set_CreatedAt (task : Task) (v : Time) : Task :=
  mkTask (ID task) (Title task) (Description task) (Status task)
         v (UpdatedAt task).
Definition set_UpdatedAt (task : Task) (v : Time) : Task :=
  mkTask (ID task) (Title task) (Description task) (Status task)
         (CreatedAt task) v.

End models.

(** ** Go error values

    The repository and the service build errors in three ways: package-level
    variables ([repository.ErrTaskNotFound], [sql.ErrNoRows]), [errors.New]
    or [fmt.Errorf] without [%w] at the point of failure, and [fmt.Errorf]
    with a trailing [%w].  A package-level variable is allocated once and
    compared by identity, so each one is a constructor of its own: it is
    different from every error built later, whatever its text.  An error
    built at the point of failure is represented by its text. *)

Module errors.

Inductive error : Type :=
| ErrTaskNotFound
| sql_ErrNoRows
| New (text : string)
| Errorf_w (context : string) (err : error).

(** [err.Error()] *)
Fixpoint Error (err : error) : string :=
  match err with
  | ErrTaskNotFound => "task not found"
  | sql_ErrNoRows => "sql: no rows in result set"
  | New text => text
  | Errorf_w context err => context +:+ Error err
  end.

(** [errors.Unwrap(err)] *)
Definition Unwrap (err : error) : option error :=
  match err with
  | Errorf_w _ err => Some err
  | _ => None
  end.

#[global] Instance error_eq_dec : EqDecision error.
Proof. solve_decision. Defined.

(** [errors.Is(err, target)]: [==] along the [Unwrap] chain. *)
Fixpoint Is (err target : error) : bool :=
  if decide (err = target) then true
  else match err with
       | Errorf_w _ err => Is err target
       | _ => false
       end.

(** [fmt.Sprintf("%d", n)] *)
Definition itoa (n : Z) : string := pretty n.

End errors.

(** ** Results and state passing

    A Go function returning [(T, error)] returns [Ok v] for [(v, nil)] and
    [Err e] for [(nil, e)].  A method of an object that owns a store is a
    function from the store to a value and the store afterwards. *)

Inductive result (A : Type) : Type :=
| Ok (v : A)
| Err (e : errors.error).
Arguments Ok {A} v.
Arguments Err {A} e.

Definition M (S A : Type) : Type := S -> A * S.

#[global] Instance M_ret {S : Type} : MRet (M S) :=
  fun A (a : A) (s : S) => (a, s).

#[global] Instance M_bind {S : Type} : MBind (M S) :=
  fun A B (k : A -> M S B) (m : M S A) (s : S) => let (a, s') := m s in k a s'.

(** ** internal/repository: the interface *)

Module repository.
Import models errors.

(** [type TaskRepository interface].  [Create] and [Update] receive a
    pointer and may write through it: they return the pointee as the call
    left it together with the error.  [GetByID] and [GetAll] return tasks
    by value: [taskRepository] allocates a new [models.Task] for every row
    it reads, so what the service writes through the pointer afterwards
    reaches the store only through [Update].  A [[]*models.Task] is [None]
    when nil and [Some l] otherwise. *)
Record TaskRepository (S : Type) : Type := mkTaskRepository {
  Create : Task -> M S (Task * option error);
  GetByID : Z -> M S (result Task);
  GetAll : M S (result (option (list Task)));
  Update : Task -> M S (Task * option error);
  Delete : Z -> M S (option error)
}.
Arguments Create {S} _ _ _.
Arguments GetByID {S} _ _ _.
Arguments GetAll {S} _ _.
Arguments Update {S} _ _ _.
Arguments Delete {S} _ _ _.

(** The calls a repository receives, in the order they were made: what
    [mock.Mock] keeps for [AssertNotCalled] in task_service_test.go. *)
Inductive Call : Type :=
| CallCreate (task : Task)
| CallGetByID (id : Z)
| CallGetAll
| CallUpdate (task : Task)
| CallDelete (id : Z).

#[global] Instance Task_eq_dec : EqDecision Task.
Proof. solve_decision. Defined.
#[global] Instance Call_eq_dec : EqDecision Call.
Proof. solve_decision. Defined.

Definition record {S A : Type} (c : Call) (m : M S A) : M (S * list Call) A :=
  fun '(s, calls) => let (a, s') := m s in (a, (s', calls ++ [c])).

(** A repository that behaves as [repo] and remembers every call. *)
Definition recording {S : Type} (repo : TaskRepository S)
  : TaskRepository (S * list Call) :=
  {| Create task := record (CallCreate task) (Create repo task);
     GetByID id := record (CallGetByID id) (GetByID repo id);
     GetAll := record CallGetAll (GetAll repo);
     Update task := record (CallUpdate task) (Update repo task);
     Delete id := record (CallDelete id) (Delete repo id) |}.

End repository.

(** ** internal/service/task_service.go *)

Module service.
Import models errors repository.

Section taskService.
Context {S : Type}.
(** [s.repo] *)
Variable repo : TaskRepository S.

Definition CreateTask (req : CreateTaskRequest.t) : M S (result Task) :=
  if String.eqb (CreateTaskRequest.Title req) "" then
    mret (Err (New "title is required"))
  else
    let task := mkTask 0 (CreateTaskRequest.Title req)
                       (CreateTaskRequest.Description req)
                       "pending" 0 0 in
    '(task, err) ← Create repo task;
    match err with
    | Some err =>
        mret (Err (Errorf_w "failed to create task in repository: " err))
    | None => mret (Ok task)
    end.

Definition GetTask (id : Z) : M S (result Task) :=
  if id <=? 0 then mret (Err (New "invalid task ID"))
  else
    r ← GetByID repo id;
    match r with
    | Err err =>
        mret (Err (Errorf_w "failed to get task from repository: " err))
    | Ok task => mret (Ok task)
    end.

Definition GetAllTasks : M S (result (option (list Task))) :=
  r ← GetAll repo;
  match r with
  | Err err =>
      mret (Err (Errorf_w "failed to get all tasks from repository: " err))
  | Ok tasks => mret (Ok tasks)
  end.

(** Lines 81-94 of [UpdateTask]: the overrides and the status check,
    on the task [GetByID] returned. *)
Definition UpdateTask_apply (existingTask : Task)
                            (req : UpdateTaskRequest.t) : result Task :=
  let existingTask :=
    if negb (String.eqb (UpdateTaskRequest.Title req) "")
    then set_Title existingTask (UpdateTaskRequest.Title req)
    else existingTask in
  let existingTask :=
    if negb (String.eqb (UpdateTaskRequest.Description req) "")
    then set_Description existingTask (UpdateTaskRequest.Description req)
    else existingTask in
  if negb (String.eqb (UpdateTaskRequest.Status req) "") then
    if negb (String.eqb (UpdateTaskRequest.Status req) "pending")
       && negb (String.eqb (UpdateTaskRequest.Status req) "in_progress")
       && negb (String.eqb (UpdateTaskRequest.Status req) "completed")
    then Err (New "invalid status value")
    else Ok (set_Status existingTask (UpdateTaskRequest.Status req))
  else Ok existingTask.

(** Lines 96-100 of [UpdateTask]: the write and what follows it. *)
Definition UpdateTask_persist (existingTask : Task) : M S (result Task) :=
  '(existingTask, err) ← Update repo existingTask;
  match err with
  | Some err =>
      mret (Err (Errorf_w "failed to update task in repository: " err))
  | None => mret (Ok existingTask)
  end.

Definition UpdateTask (id : Z) (req : UpdateTaskRequest.t)
  : M S (result Task) :=
  if id <=? 0 then mret (Err (New "invalid task ID"))
  else
    r ← GetByID repo id;
    match r with
    | Err err =>
        mret (Err (Errorf_w ("task with ID " +:+ itoa id +:+ " not found: ")
                           err))
    | Ok existingTask =>
        match UpdateTask_apply existingTask req with
        | Err err => mret (Err err)
        | Ok existingTask => UpdateTask_persist existingTask
        end
    end.

Definition DeleteTask (id : Z) : M S (option error) :=
  if id <=? 0 then mret (Some (New "invalid task ID"))
  else
    err ← Delete repo id;
    match err with
    | Some err =>
        mret (Some (Errorf_w "failed to delete task from repository: " err))
    | None => mret None
    end.

End taskService.

End service.

(** ** The store behind [*sql.DB]

    The [tasks] table of the schema script ([id SERIAL PRIMARY KEY], title,
    description, status, created_at, updated_at) and the five statements the
    repository sends to it.  [NOW()] reads the store's clock, which moves on
    after every statement that reads it.  A store that cannot serve requests
    (connection lost, statement rejected) answers every statement with the
    error in [failure] and changes nothing.

    The statements store the values they are given and look an id up among
    the keys of the table.  What the column types add to that (an id outside
    [SERIAL], a title beyond [VARCHAR(255)], text the encoding refuses) is
    not part of the model: a property that needs a value to fit its column
    says so in a hypothesis, or speaks of what the statement was given. *)

Module sql.
Import models errors.

Record Row := mkRow {
  title : string;
  description : string;
  status : string;
  created_at : Time;
  updated_at : Time
}.

Record DB := mkDB {
  tasks : gmap Z Row;
  tasks_id_seq : Z;
  clock : Time;
  failure : option error
}.

Definition with_tasks (db : DB) (t : gmap Z Row) : DB :=
  mkDB t (tasks_id_seq db) (clock db) (failure db).

(** The columns [id, title, description, status, created_at, updated_at]
    of one row. *)
Definition columns (r : Z * Row) : Task :=
  mkTask r.1 (title r.2) (description r.2) (status r.2)
         (created_at r.2) (updated_at r.2).

(** [INSERT INTO tasks (title, description, status, created_at, updated_at)
     VALUES ($1, $2, $3, NOW(), NOW()) RETURNING id, created_at, updated_at] *)
Definition INSERT (a1 a2 a3 : string) : M DB (result (Z * Time * Time)) :=
  fun db =>
    match failure db with
    | Some err => (Err err, db)
    | None =>
        let id := tasks_id_seq db in
        let now := clock db in
        (Ok (id, now, now),
         mkDB (<[id := mkRow a1 a2 a3 now now]> (tasks db))
              (id + 1) (now + 1) None)
    end.

(** [SELECT id, title, description, status, created_at, updated_at
     FROM tasks WHERE id = $1], read with [QueryRow(...).Scan]. *)
Definition SELECT_WHERE_id (a1 : Z) : M DB (result Task) :=
  fun db =>
    match failure db with
    | Some err => (Err err, db)
    | None =>
        match tasks db !! a1 with
        | Some row => (Ok (columns (a1, row)), db)
        | None => (Err sql_ErrNoRows, db)
        end
    end.

(** [ORDER BY created_at DESC]: a row comes before every row that is not
    newer. *)
Definition created_at_DESC (x y : Z * Row) : Prop :=
  created_at y.2 <= created_at x.2.

#[global] Instance created_at_DESC_dec : RelDecision created_at_DESC.
Proof. intros x y. unfold created_at_DESC. apply _. Defined.

(** [SELECT id, title, description, status, created_at, updated_at
     FROM tasks ORDER BY created_at DESC] *)
Definition SELECT_ORDER_BY_created_at_DESC : M DB (result (list Task)) :=
  fun db =>
    match failure db with
    | Some err => (Err err, db)
    | None =>
        (Ok (columns <$> merge_sort created_at_DESC (map_to_list (tasks db))),
         db)
    end.

(** [UPDATE tasks SET title = $1, description = $2, status = $3,
     updated_at = NOW() WHERE id = $4 RETURNING updated_at], read with
    [QueryRow(...).Scan]. *)
Definition UPDATE (a1 a2 a3 : string) (a4 : Z) : M DB (result Time) :=
  fun db =>
    match failure db with
    | Some err => (Err err, db)
    | None =>
        match tasks db !! a4 with
        | Some row =>
            let now := clock db in
            (Ok now,
             mkDB (<[a4 := mkRow a1 a2 a3 (created_at row) now]> (tasks db))
                  (tasks_id_seq db) (now + 1) None)
        | None => (Err sql_ErrNoRows, db)
        end
    end.

(** [DELETE FROM tasks WHERE id = $1], sent with [Exec]; the value is what
    [RowsAffected] of its result returns. *)
Definition DELETE (a1 : Z) : M DB (result (result Z)) :=
  fun db =>
    match failure db with
    | Some err => (Err err, db)
    | None =>
        match tasks db !! a1 with
        | Some _ => (Ok (Ok 1), with_tasks db (delete a1 (tasks db)))
        | None => (Ok (Ok 0), db)
        end
    end.

End sql.

(** ** internal/repository/task_repository.go *)

Module taskRepository.
Import models errors repository.

Definition Create (task : Task) : M sql.DB (Task * option error) :=
  r ← sql.INSERT (Title task) (Description task) (Status task);
  match r with
  | Err err => mret (task, Some err)
  | Ok (id, created_at, updated_at) =>
      mret (set_UpdatedAt (set_CreatedAt (set_ID task id) created_at)
                          updated_at, None)
  end.

Definition GetByID (id : Z) : M sql.DB (result Task) :=
  r ← sql.SELECT_WHERE_id id;
  match r with
  | Err err =>
      if decide (err = sql_ErrNoRows) then mret (Err ErrTaskNotFound)
      else mret (Err err)
  | Ok task => mret (Ok task)
  end.

Definition GetAll : M sql.DB (result (option (list Task))) :=
  r ← sql.SELECT_ORDER_BY_created_at_DESC;
  match r with
  | Err err => mret (Err err)
  | Ok rows =>
      let tasks := foldl (fun tasks task => tasks ++ [task]) [] rows in
      mret (Ok (Some tasks))
  end.

Definition Update (task : Task) : M sql.DB (Task * option error) :=
  r ← sql.UPDATE (Title task) (Description task) (Status task) (ID task);
  match r with
  | Err err => mret (task, Some err)
  | Ok updated_at => mret (set_UpdatedAt task updated_at, None)
  end.

Definition Delete (id : Z) : M sql.DB (option error) :=
  r ← sql.DELETE id;
  match r with
  | Err err => mret (Some err)
  | Ok result =>
      match result with
      | Err err => mret (Some err)
      | Ok rowsAffected =>
          if rowsAffected =? 0 then
            mret (Some (New ("task with ID " +:+ itoa id
                               +:+ " not found for deletion")))
          else mret None
      end
  end.

(** [NewTaskRepository(db)] *)
Definition NewTaskRepository : TaskRepository sql.DB :=
  mkTaskRepository sql.DB Create GetByID GetAll Update Delete.

End taskRepository.

(** ** internal/handlers/task_handler.go

    What each handler writes to the [http.ResponseWriter], as a function of
    what [strconv.Atoi] and the JSON decoder made of the request. *)

Module http.
Import models.

Definition StatusOK : Z := 200.
Definition StatusCreated : Z := 201.
Definition StatusNoContent : Z := 204.
Definition StatusBadRequest : Z := 400.
Definition StatusNotFound : Z := 404.
Definition StatusInternalServerError : Z := 500.

Inductive Body : Type :=
| NoBody
| Text (s : string)
| JSONTask (task : Task)
| JSONTasks (tasks : option (list Task)).

Record Response := mkResponse { StatusCode : Z; body : Body }.

Definition LF : string := String (Ascii.ascii_of_nat 10) EmptyString.

(** [http.Error(w, msg, code)] writes [msg] and a line feed. *)
Definition Error (msg : string) (code : Z) : Response :=
  mkResponse code (Text (msg +:+ LF)).

End http.

Module handlers.
Import models errors repository.

Section TaskHandler.
Context {S : Type}.
(** The repository behind [h.service]. *)
Variable repo : TaskRepository S.

Definition CreateTask (decoded : result CreateTaskRequest.t)
  : M S http.Response :=
  match decoded with
  | Err err =>
      mret (http.Error ("invalid request body: " +:+ Error err)
                       http.StatusBadRequest)
  | Ok req =>
      r ← service.CreateTask repo req;
      match r with
      | Err err =>
          mret (http.Error ("failed to create task: " +:+ Error err)
                           http.StatusInternalServerError)
      | Ok task => mret (http.mkResponse http.StatusCreated
                                         (http.JSONTask task))
      end
  end.

Definition GetTask (atoi : result Z) : M S http.Response :=
  match atoi with
  | Err _ => mret (http.Error "invalid task ID format" http.StatusBadRequest)
  | Ok id =>
      r ← service.GetTask repo id;
      match r with
      | Err err =>
          if String.eqb (Error err)
                        ("task with ID " +:+ itoa id +:+ " not found")
          then mret (http.Error (Error err) http.StatusNotFound)
          else mret (http.Error ("failed to retrieve task: " +:+ Error err)
                                http.StatusInternalServerError)
      | Ok task => mret (http.mkResponse http.StatusOK (http.JSONTask task))
      end
  end.

Definition GetAllTasks : M S http.Response :=
  r ← service.GetAllTasks repo;
  match r with
  | Err err =>
      mret (http.Error ("failed to retrieve tasks: " +:+ Error err)
                       http.StatusInternalServerError)
  | Ok tasks => mret (http.mkResponse http.StatusOK (http.JSONTasks tasks))
  end.

Definition UpdateTask (atoi : result Z)
                      (decoded : result UpdateTaskRequest.t)
  : M S http.Response :=
  match atoi with
  | Err _ => mret (http.Error "invalid task ID format" http.StatusBadRequest)
  | Ok id =>
      match decoded with
      | Err err =>
          mret (http.Error ("invalid request body: " +:+ Error err)
                           http.StatusBadRequest)
      | Ok req =>
          r ← service.UpdateTask repo id req;
          match r with
          | Err err =>
              if String.eqb (Error err)
                            ("task with ID " +:+ itoa id +:+
                             " not found: sql: no rows in result set")
                 || String.eqb (Error err)
                               ("task with ID " +:+ itoa id +:+ " not found")
              then mret (http.Error "task not found" http.StatusNotFound)
              else if String.eqb (Error err) "invalid status value"
              then mret (http.Error (Error err) http.StatusBadRequest)
              else mret (http.Error ("failed to update task: "
                                       +:+ Error err)
                                    http.StatusInternalServerError)
          | Ok task =>
              mret (http.mkResponse http.StatusOK (http.JSONTask task))
          end
      end
  end.

Definition DeleteTask (atoi : result Z) : M S http.Response :=
  match atoi with
  | Err _ => mret (http.Error "invalid task ID format" http.StatusBadRequest)
  | Ok id =>
      err ← service.DeleteTask repo id;
      match err with
      | Some err =>
          if String.eqb (Error err)
                        ("task with ID " +:+ itoa id
                           +:+ " not found for deletion")
          then mret (http.Error (Error err) http.StatusNotFound)
          else mret (http.Error ("failed to delete task: " +:+ Error err)
                                http.StatusInternalServerError)
      | None => mret (http.mkResponse http.StatusNoContent http.NoBody)
      end
  end.

End TaskHandler.

End handlers.

(** ** The mock repository of task_service_test.go

    [MockTaskRepository] answers every call with the values given to
    [On(...).Return(...)]; [Create] and [Update] write the id and the
    timestamps through the pointer when the configured error is nil. *)

Module service_test.
Import models errors repository.

Record Returns := mkReturns {
  Create_Return : option error;
  GetByID_Return : Z → result Task;
  GetAll_Return : result (option (list Task));
  Update_Return : option error;
  Delete_Return : Z → option error;
  time_Now : Time
}.

Definition MockTaskRepository (on : Returns) : TaskRepository unit :=
  {| Create task :=
       match Create_Return on with
       | None =>
           mret (set_UpdatedAt (set_CreatedAt (set_ID task 1) (time_Now on))
                               (time_Now on), None)
       | Some err => mret (task, Some err)
       end;
     GetByID id := mret (GetByID_Return on id);
     GetAll := mret (GetAll_Return on);
     Update task :=
       match Update_Return on with
       | None => mret (set_UpdatedAt task (time_Now on), None)
       | Some err => mret (task, Some err)
       end;
     Delete id := mret (Delete_Return on id) |}.

Definition existingTask : Task :=
  mkTask 1 "Original Title" "Original Desc" "pending" 10 10.

End service_test.

(** ** cmd/api/main.go: the routes

    The six routes [main] registers on the router, each with what the
    handler receives once the route has matched: the outcome of
    [strconv.Atoi] on the [{id}] variable and of the JSON decoder on the
    body. *)

Module main.
Import models errors repository.

Inductive Request : Type :=
| POST_tasks (decoded : result CreateTaskRequest.t)
| GET_tasks
| GET_task (atoi : result Z)
| PUT_task (atoi : result Z) (decoded : result UpdateTaskRequest.t)
| DELETE_task (atoi : result Z)
| GET_health.

(** [healthCheck] *)
Definition healthCheck {S : Type} : M S http.Response :=
  mret (http.mkResponse http.StatusOK (http.Text "OK")).

Section router.
Context {S : Type}.
(** [taskRepo], behind [taskService] and [taskHandler]. *)
Variable taskRepo : TaskRepository S.

(** [r.ServeHTTP] on a request that matches a route. *)
Definition ServeHTTP (r : Request) : M S http.Response :=
  match r with
  | POST_tasks decoded => handlers.CreateTask taskRepo decoded
  | GET_tasks => handlers.GetAllTasks taskRepo
  | GET_task atoi => handlers.GetTask taskRepo atoi
  | PUT_task atoi decoded => handlers.UpdateTask taskRepo atoi decoded
  | DELETE_task atoi => handlers.DeleteTask taskRepo atoi
  | GET_health => healthCheck
  end.

(** The requests of a session, served one after the other. *)
Fixpoint serve (rs : list Request) : M S (list http.Response) :=
  match rs with
  | [] => mret []
  | r :: rs =>
      w ← ServeHTTP r;
      ws ← serve rs;
      mret (w :: ws)
  end.

End router.

End main.

(** ** tests/e2e/e2e_test.go: [waitForServer]

    [probe i] tells whether the [i]-th GET of [/health] came back without
    error and with status 200.  The value is [Some i] when the loop returns
    at iteration [i] and [None] when it falls through to [t.Fatal]. *)

Module e2e.

Fixpoint waitForServer_loop (probe : nat → bool) (i : nat) (remaining : nat)
  : option nat :=
  match remaining with
  | O => None
  | Datatypes.S remaining =>
      if probe i then Some i
      else waitForServer_loop probe (Datatypes.S i) remaining
  end.

Definition waitForServer (probe : nat → bool) : option nat :=
  waitForServer_loop probe 0 15.

End e2e.

(** ** Vocabulary of the properties *)

Import models errors repository.

(** The repository the program runs with. *)
Abbreviation R := taskRepository.NewTaskRepository.

(** [err] was made by [fmt.Errorf(context + "%w", cause)]: [cause] is one
    [Unwrap] away, [errors.Is] finds it, and the text of [err] is the text
    of [cause] behind a context of its own. *)
Definition wraps (err cause : error) : Prop :=
  Unwrap err = Some cause ∧
  Is err cause = true ∧
  ∃ context : string, context ≠ "" ∧ Error err = context +:+ Error cause.


(** The three-value enumeration of [Status]. *)
Definition in_enumeration (status : string) : Prop :=
  status = "pending" ∨ status = "in_progress" ∨ status = "completed".

Definition override (requested current : string) : string :=
  if String.eqb requested "" then current else requested.

(** Newest first: no task is followed by a newer one. *)
Definition newest_first (a b : Task) : Prop := CreatedAt b <= CreatedAt a.

(** ** What the columns hold *)

(** The range of [id SERIAL], a 32-bit signed integer. *)
Definition int4 (n : Z) : Prop := -2147483648 <= n <= 2147483647.

(** A title [title VARCHAR(255)] stores as it is: at most 255 bytes, so at
    most 255 characters. *)
Definition fits_title (title : string) : Prop :=
  (String.length title ≤ 255)%nat.

(** Text the store takes as it is in any encoding: 7-bit characters, none
    of them NUL. *)
Definition plain (text : string) : Prop :=
  forallb (fun c => (0 <? Ascii.nat_of_ascii c)%nat
                    && (Ascii.nat_of_ascii c <? 128)%nat)
          (String.list_ascii_of_string text) = true.

(** ** Concrete stores *)

(** An empty table, as the integration tests start from. *)
Definition empty_db : sql.DB := sql.mkDB ∅ 1 100 None.

(** The table after one insert. *)
Definition one_task_db : sql.DB :=
  sql.mkDB {[ 1 := sql.mkRow "Original Title" "Original Desc" "pending"
                              100 100 ]} 2 101 None.

(** The table of [TestGetAllTasksIntegration]: Task One, then Task Two. *)
Definition two_task_db : sql.DB :=
  sql.mkDB (<[ 2 := sql.mkRow "Task Two" "Desc Two" "completed" 101 101 ]>
              {[ 1 := sql.mkRow "Task One" "Desc One" "pending" 100 100 ]})
           3 102 None.

(** A store whose connection is lost. *)
Definition failing_db : sql.DB :=
  sql.mkDB ∅ 1 100 (Some (New "database connection failed")).

(** ** Invariants of the table *)

(** What the service never lets through: an empty title, a status outside
    the enumeration. *)
Definition row_valid (row : sql.Row) : Prop :=
  sql.title row ≠ "" ∧ in_enumeration (sql.status row).

Definition rows_valid (db : sql.DB) : Prop :=
  map_Forall (fun _ row => row_valid row) (sql.tasks db).

(** The bookkeeping of the store: ids were drawn from the sequence, no row
    was updated before it was created, and no timestamp is ahead of the
    clock. *)
Definition row_consistent (db : sql.DB) (id : Z) (row : sql.Row) : Prop :=
  0 < id < sql.tasks_id_seq db ∧
  sql.created_at row <= sql.updated_at row ∧
  sql.updated_at row < sql.clock db.

Definition consistent (db : sql.DB) : Prop :=
  0 < sql.tasks_id_seq db ∧ map_Forall (row_consistent db) (sql.tasks db).

(** * Properties *)

(** ** Error chains *)

Lemma Is_refl (err : error) : Is err err = true.
Proof. destruct err; cbn [Is]; by rewrite decide_True. Qed.

Lemma Is_Errorf_w (context : string) (err target : error) :
  Is err target = true → Is (Errorf_w context err) target = true.
Proof. intros H. cbn [Is]. by case_decide. Qed.

Lemma Is_Errorf_w_ErrTaskNotFound (context : string) (err : error) :
  Is (Errorf_w context err) ErrTaskNotFound = Is err ErrTaskNotFound.
Proof. cbn [Is]. by rewrite decide_False. Qed.

Lemma wraps_Errorf_w (context : string) (cause : error) :
  context ≠ "" → wraps (Errorf_w context cause) cause.
Proof.
  intros Hne. split; [done|]. split.
  - apply Is_Errorf_w, Is_refl.
  - by exists context.
Qed.

(** ** Running the service *)

Ltac run :=
  unfold service.CreateTask, service.GetTask, service.GetAllTasks,
    service.UpdateTask, service.UpdateTask_persist, service.DeleteTask,
    recording, record, mbind, M_bind, mret, M_ret; simpl.

Lemma Zle_bool_pos (id : Z) : 0 < id → (id <=? 0) = false.
Proof. intros. by apply Z.leb_gt. Qed.

Lemma Zle_bool_nonpos (id : Z) : id <= 0 → (id <=? 0) = true.
Proof. intros. by apply Z.leb_le. Qed.

Lemma eqb_empty (s : string) : s = "" → String.eqb s "" = true.
Proof. intros ->. done. Qed.

Lemma eqb_nonempty (s : string) : s ≠ "" → String.eqb s "" = false.
Proof. intros. by apply String.eqb_neq. Qed.

(** The recording repository is an observer: the service returns the same
    value and leaves the same store with it as without it. *)
Section recording_erasure.
Context {S : Type} (repo : TaskRepository S).
Implicit Types (s : S) (calls : list Call).

Lemma recording_CreateTask req s calls :
  let out := service.CreateTask (recording repo) req (s, calls) in
  (out.1, out.2.1) = service.CreateTask repo req s.
Proof.
  run. destruct (String.eqb _ _); [done|].
  destruct (Create repo _ s) as [[task [err|]] s']; done.
Qed.

Lemma recording_GetTask id s calls :
  let out := service.GetTask (recording repo) id (s, calls) in
  (out.1, out.2.1) = service.GetTask repo id s.
Proof.
  run. destruct (id <=? 0); [done|].
  destruct (GetByID repo id s) as [[task|err] s']; done.
Qed.

Lemma recording_GetAllTasks s calls :
  let out := service.GetAllTasks (recording repo) (s, calls) in
  (out.1, out.2.1) = service.GetAllTasks repo s.
Proof. run. destruct (GetAll repo s) as [[tasks|err] s']; done. Qed.

Lemma recording_UpdateTask id req s calls :
  let out := service.UpdateTask (recording repo) id req (s, calls) in
  (out.1, out.2.1) = service.UpdateTask repo id req s.
Proof.
  run. destruct (id <=? 0); [done|].
  destruct (GetByID repo id s) as [[task|err] s']; [|done].
  destruct (service.UpdateTask_apply task req) as [task'|err]; [|done].
  simpl. destruct (Update repo task' s') as [[task'' [err|]] s'']; done.
Qed.

Lemma recording_DeleteTask id s calls :
  let out := service.DeleteTask (recording repo) id (s, calls) in
  (out.1, out.2.1) = service.DeleteTask repo id s.
Proof.
  run. destruct (id <=? 0); [done|].
  destruct (Delete repo id s) as [[err|] s']; done.
Qed.

End recording_erasure.

(** ** Validation before any store access *)

(** C6. A create request with an empty title fails with the error
    "title is required"; the repository, whichever it is, receives no call
    and the store is left as it was. *)
Theorem CreateTask_empty_title {S : Type} (repo : TaskRepository S)
    (req : CreateTaskRequest.t) (s : S) (calls : list Call) :
  CreateTaskRequest.Title req = "" →
  service.CreateTask (recording repo) req (s, calls)
  = (Err (New "title is required"), (s, calls)).
Proof. intros Htitle. run. by rewrite (eqb_empty _ Htitle). Qed.

(** C8. For an id that is zero or negative, get-by-id, update and delete
    each fail with the error "invalid task ID"; the repository, whichever it
    is, receives no call and the store is left as it was. *)
Theorem invalid_task_ID {S : Type} (repo : TaskRepository S)
    (id : Z) (req : UpdateTaskRequest.t) (s : S) (calls : list Call) :
  id <= 0 →
  service.GetTask (recording repo) id (s, calls)
  = (Err (New "invalid task ID"), (s, calls)) ∧
  service.UpdateTask (recording repo) id req (s, calls)
  = (Err (New "invalid task ID"), (s, calls)) ∧
  service.DeleteTask (recording repo) id (s, calls)
  = (Some (New "invalid task ID"), (s, calls)).
Proof. intros Hid. run. by rewrite (Zle_bool_nonpos _ Hid). Qed.

(** ** Gateway failures reach the caller wrapped *)

(** C5. Whatever the repository and whichever of its operations fails, the
    service operation that made the call fails too, and the error it returns
    wraps the repository's error behind a context: the cause is what
    [Unwrap] returns, [errors.Is] finds it, and its text is kept after the
    context. *)
Theorem service_wraps_gateway_error {S : Type} (repo : TaskRepository S)
    (s : S) (cause : error) :
  (∀ req task,
     CreateTaskRequest.Title req ≠ "" →
     (Create repo (mkTask 0 (CreateTaskRequest.Title req)
                          (CreateTaskRequest.Description req) "pending" 0 0)
             s).1 = (task, Some cause) →
     ∃ err, (service.CreateTask repo req s).1 = Err err ∧ wraps err cause) ∧
  (∀ id,
     0 < id → (GetByID repo id s).1 = Err cause →
     ∃ err, (service.GetTask repo id s).1 = Err err ∧ wraps err cause) ∧
  ((GetAll repo s).1 = Err cause →
     ∃ err, (service.GetAllTasks repo s).1 = Err err ∧ wraps err cause) ∧
  (∀ id req,
     0 < id → (GetByID repo id s).1 = Err cause →
     ∃ err, (service.UpdateTask repo id req s).1 = Err err ∧ wraps err cause) ∧
  (∀ id req existingTask s1 task task',
     0 < id → GetByID repo id s = (Ok existingTask, s1) →
     service.UpdateTask_apply existingTask req = Ok task →
     (Update repo task s1).1 = (task', Some cause) →
     ∃ err, (service.UpdateTask repo id req s).1 = Err err ∧ wraps err cause) ∧
  (∀ id,
     0 < id → (Delete repo id s).1 = Some cause →
     ∃ err, (service.DeleteTask repo id s).1 = Some err ∧ wraps err cause).
Proof.
  repeat split.
  - intros req task Htitle Hcall. run. rewrite (eqb_nonempty _ Htitle).
    destruct (Create repo _ s) as [[task' err] s']. simpl in Hcall.
    injection Hcall as -> ->. eexists. split; [done|].
    by apply wraps_Errorf_w.
  - intros id Hid Hcall. run. rewrite (Zle_bool_pos _ Hid).
    destruct (GetByID repo id s) as [r s']. simpl in Hcall. subst r.
    eexists. split; [done|]. by apply wraps_Errorf_w.
  - intros Hcall. run.
    destruct (GetAll repo s) as [r s']. simpl in Hcall. subst r.
    eexists. split; [done|]. by apply wraps_Errorf_w.
  - intros id req Hid Hcall. run. rewrite (Zle_bool_pos _ Hid).
    destruct (GetByID repo id s) as [r s']. simpl in Hcall. subst r.
    eexists. split; [done|]. by apply wraps_Errorf_w.
  - intros id req existingTask s1 task task' Hid Hget Happly Hcall. run.
    rewrite (Zle_bool_pos _ Hid), Hget, Happly. simpl.
    destruct (Update repo task s1) as [[task'' err] s']. simpl in Hcall.
    injection Hcall as -> ->. eexists. split; [done|].
    by apply wraps_Errorf_w.
  - intros id Hid Hcall. run. rewrite (Zle_bool_pos _ Hid).
    destruct (Delete repo id s) as [err s']. simpl in Hcall. subst err.
    eexists. split; [done|]. by apply wraps_Errorf_w.
Qed.

(** ** The SQL repository, statement by statement *)

Ltac run_sql :=
  unfold taskRepository.NewTaskRepository, taskRepository.Create,
    taskRepository.GetByID, taskRepository.GetAll, taskRepository.Update,
    taskRepository.Delete, sql.INSERT, sql.SELECT_WHERE_id,
    sql.SELECT_ORDER_BY_created_at_DESC, sql.UPDATE, sql.DELETE,
    mbind, M_bind, mret, M_ret; simpl.

Section taskRepository_facts.
Implicit Types (db : sql.DB) (id : Z) (row : sql.Row) (task : Task).

Lemma Create_healthy db task :
  sql.failure db = None →
  taskRepository.Create task db
  = ((mkTask (sql.tasks_id_seq db) (Title task) (Description task)
             (Status task) (sql.clock db) (sql.clock db), None),
     sql.mkDB (<[sql.tasks_id_seq db :=
                   sql.mkRow (Title task) (Description task) (Status task)
                             (sql.clock db) (sql.clock db)]> (sql.tasks db))
              (sql.tasks_id_seq db + 1) (sql.clock db + 1) None).
Proof. intros Hdb. run_sql. by rewrite Hdb. Qed.

Lemma Create_failure db task err :
  sql.failure db = Some err →
  taskRepository.Create task db = ((task, Some err), db).
Proof. intros Hdb. run_sql. by rewrite Hdb. Qed.

Lemma GetByID_found db id row :
  sql.failure db = None → sql.tasks db !! id = Some row →
  taskRepository.GetByID id db = (Ok (sql.columns (id, row)), db).
Proof. intros Hdb Hrow. run_sql. by rewrite Hdb, Hrow. Qed.

Lemma GetByID_missing db id :
  sql.failure db = None → sql.tasks db !! id = None →
  taskRepository.GetByID id db = (Err ErrTaskNotFound, db).
Proof. intros Hdb Hrow. run_sql. by rewrite Hdb, Hrow. Qed.

Lemma GetByID_failure db id err :
  sql.failure db = Some err → err ≠ sql_ErrNoRows →
  taskRepository.GetByID id db = (Err err, db).
Proof. intros Hdb Herr. run_sql. rewrite Hdb. by rewrite decide_False. Qed.

Lemma Update_found db task row :
  sql.failure db = None → sql.tasks db !! ID task = Some row →
  taskRepository.Update task db
  = ((set_UpdatedAt task (sql.clock db), None),
     sql.mkDB (<[ID task :=
                   sql.mkRow (Title task) (Description task) (Status task)
                             (sql.created_at row) (sql.clock db)]>
                 (sql.tasks db))
              (sql.tasks_id_seq db) (sql.clock db + 1) None).
Proof. intros Hdb Hrow. run_sql. by rewrite Hdb, Hrow. Qed.

Lemma Delete_found db id row :
  sql.failure db = None → sql.tasks db !! id = Some row →
  taskRepository.Delete id db
  = (None, sql.with_tasks db (delete id (sql.tasks db))).
Proof. intros Hdb Hrow. run_sql. by rewrite Hdb, Hrow. Qed.

Lemma Delete_missing db id :
  sql.failure db = None → sql.tasks db !! id = None →
  taskRepository.Delete id db
  = (Some (New ("task with ID " +:+ itoa id +:+ " not found for deletion")),
     db).
Proof. intros Hdb Hrow. run_sql. by rewrite Hdb, Hrow. Qed.

(** The [append] loop of [GetAll] keeps the rows in the order the store
    delivered them. *)
Lemma GetAll_loop (rows acc : list Task) :
  foldl (fun tasks task => tasks ++ [task]) acc rows = acc ++ rows.
Proof.
  revert acc. induction rows as [|task rows IH]; intros acc; simpl.
  - by rewrite app_nil_r.
  - by rewrite IH, <- app_assoc.
Qed.

Lemma GetAll_healthy db :
  sql.failure db = None →
  taskRepository.GetAll db
  = (Ok (Some (sql.columns <$>
                 merge_sort sql.created_at_DESC (map_to_list (sql.tasks db)))),
     db).
Proof. intros Hdb. run_sql. rewrite Hdb. by rewrite GetAll_loop. Qed.

End taskRepository_facts.

(** ** Create *)

(** C7. For a create request with a non-empty title, the task handed to the
    repository has status "pending", the request's title and description,
    and no id or timestamp; the task returned on success has the same
    status, title and description, and its id and timestamps are the ones
    the INSERT statement returned.  Whenever the INSERT statement returns a
    row, the operation succeeds with exactly that task. *)
Theorem CreateTask_pending (req : CreateTaskRequest.t) (db : sql.DB)
    (calls : list Call) :
  CreateTaskRequest.Title req ≠ "" →
  let out := service.CreateTask (recording R) req (db, calls) in
  out.2.2 = calls ++ [CallCreate (mkTask 0 (CreateTaskRequest.Title req)
                                         (CreateTaskRequest.Description req)
                                         "pending" 0 0)] ∧
  (∀ task, out.1 = Ok task →
     Status task = "pending" ∧
     Title task = CreateTaskRequest.Title req ∧
     Description task = CreateTaskRequest.Description req ∧
     (sql.INSERT (CreateTaskRequest.Title req)
                 (CreateTaskRequest.Description req) "pending" db).1
     = Ok (ID task, CreatedAt task, UpdatedAt task)) ∧
  (∀ id created_at updated_at,
     (sql.INSERT (CreateTaskRequest.Title req)
                 (CreateTaskRequest.Description req) "pending" db).1
     = Ok (id, created_at, updated_at) →
     out.1 = Ok (mkTask id (CreateTaskRequest.Title req)
                        (CreateTaskRequest.Description req) "pending"
                        created_at updated_at)).
Proof.
  intros Htitle. run. rewrite (eqb_nonempty _ Htitle).
  destruct (sql.failure db) as [err|] eqn:Hdb.
  - rewrite (Create_failure _ _ _ Hdb). simpl. split_and!; [done..|].
    intros id created_at updated_at. run_sql. by rewrite Hdb.
  - rewrite (Create_healthy _ _ Hdb). simpl. split_and!; [done| |].
    + intros task [= <-]. run_sql. by rewrite Hdb.
    + intros id created_at updated_at. run_sql. rewrite Hdb. simpl.
      by intros [= <- <- <-].
Qed.

(** ** Update *)


Lemma UpdateTask_apply_accepts (existingTask : Task) (req : UpdateTaskRequest.t) :
  UpdateTaskRequest.Status req = "" ∨
    in_enumeration (UpdateTaskRequest.Status req) →
  service.UpdateTask_apply existingTask req
  = Ok (mkTask (ID existingTask)
               (override (UpdateTaskRequest.Title req) (Title existingTask))
               (override (UpdateTaskRequest.Description req)
                         (Description existingTask))
               (override (UpdateTaskRequest.Status req) (Status existingTask))
               (CreatedAt existingTask) (UpdatedAt existingTask)).
Proof.
  destruct req as [title description status], existingTask as [i t d s c u].
  unfold service.UpdateTask_apply, override, in_enumeration. simpl.
  intros Hstatus.
  destruct (String.eqb title ""), (String.eqb description "");
    destruct Hstatus as [-> | [-> | [-> | ->]]]; reflexivity.
Qed.

Lemma UpdateTask_apply_rejects (existingTask : Task) (req : UpdateTaskRequest.t) :
  UpdateTaskRequest.Status req ≠ "" →
  ¬ in_enumeration (UpdateTaskRequest.Status req) →
  service.UpdateTask_apply existingTask req = Err (New "invalid status value").
Proof.
  unfold service.UpdateTask_apply, in_enumeration. intros Hne Hnot.
  rewrite (eqb_nonempty _ Hne). simpl.
  assert (String.eqb (UpdateTaskRequest.Status req) "pending" = false) as ->
    by (apply String.eqb_neq; tauto).
  assert (String.eqb (UpdateTaskRequest.Status req) "in_progress" = false) as ->
    by (apply String.eqb_neq; tauto).
  assert (String.eqb (UpdateTaskRequest.Status req) "completed" = false) as ->
    by (apply String.eqb_neq; tauto).
  done.
Qed.


(** C4. On a store that serves requests, an update whose id is positive,
    within the range of the id column, and names no row fails with an error
    in which [errors.Is] finds [ErrTaskNotFound]; the only call the
    repository received is the fetch, never [Update], and the store is
    exactly as before. *)
Theorem UpdateTask_not_found (db : sql.DB) (calls : list Call) (id : Z)
    (req : UpdateTaskRequest.t) :
  0 < id → int4 id → sql.failure db = None → sql.tasks db !! id = None →
  ∃ err,
    service.UpdateTask (recording R) id req (db, calls)
    = (Err err, (db, calls ++ [CallGetByID id])) ∧
    err = Errorf_w ("task with ID " +:+ itoa id +:+ " not found: ")
                   ErrTaskNotFound ∧
    Is err ErrTaskNotFound = true.
Proof.
  intros Hid _ Hdb Hrow. eexists. split_and!; [|done|].
  - run. rewrite (Zle_bool_pos _ Hid).
    by rewrite (GetByID_missing _ _ Hdb Hrow).
  - by rewrite Is_Errorf_w_ErrTaskNotFound.
Qed.

(** C10. On a store that serves requests, an update of an existing task in
    which title, description and status are all empty still reaches the
    repository's [Update], with the task as it was fetched; the store writes
    the row with the same title, description, status and created_at, and
    with updated_at set to the reading of its clock, which the returned task
    carries too. *)
Theorem UpdateTask_empty_request_writes (db : sql.DB) (calls : list Call)
    (id : Z) (row : sql.Row) :
  0 < id → sql.failure db = None → sql.tasks db !! id = Some row →
  let out :=
    service.UpdateTask (recording R) id (UpdateTaskRequest.mk "" "" "")
                       (db, calls) in
  out.2.2 = calls ++ [CallGetByID id; CallUpdate (sql.columns (id, row))] ∧
  out.1 = Ok (set_UpdatedAt (sql.columns (id, row)) (sql.clock db)) ∧
  sql.tasks out.2.1 !! id
  = Some (sql.mkRow (sql.title row) (sql.description row) (sql.status row)
                    (sql.created_at row) (sql.clock db)).
Proof.
  intros Hid Hdb Hrow. run. rewrite (Zle_bool_pos _ Hid).
  rewrite (GetByID_found _ _ _ Hdb Hrow).
  unfold service.UpdateTask_apply. simpl.
  rewrite (Update_found db _ row Hdb) by done. simpl.
  split_and!; [by rewrite <- app_assoc|done|apply lookup_insert_eq].
Qed.

(** ** Get-all *)

#[local] Instance created_at_DESC_transitive : Transitive sql.created_at_DESC.
Proof. intros x y z. unfold sql.created_at_DESC. lia. Qed.

#[local] Instance created_at_DESC_total : Total sql.created_at_DESC.
Proof. intros x y. unfold sql.created_at_DESC. lia. Qed.

(** C9. Get-all returns the rows the SELECT statement delivered, in the
    order it delivered them and as a slice that is not nil even when there
    is none.  On a store that serves requests the statement delivers every
    row of the table once, with its id, title, description, status and
    timestamps, ordered by created_at from newest to oldest, so that is what
    get-all returns; for an empty table it is the empty sequence, neither an
    error nor a nil slice. *)
Theorem GetAllTasks_newest_first (db : sql.DB) :
  (∀ rows,
     (sql.SELECT_ORDER_BY_created_at_DESC db).1 = Ok rows →
     service.GetAllTasks R db = (Ok (Some rows), db)) ∧
  (sql.failure db = None →
   ∃ tasks,
     service.GetAllTasks R db = (Ok (Some tasks), db) ∧
     StronglySorted newest_first tasks ∧
     tasks ≡ₚ (fun x : Z * sql.Row =>
                 mkTask x.1 (sql.title x.2) (sql.description x.2)
                        (sql.status x.2) (sql.created_at x.2)
                        (sql.updated_at x.2))
              <$> map_to_list (sql.tasks db) ∧
     (sql.tasks db = ∅ → tasks = [])).
Proof.
  split.
  - intros rows. run. run_sql. destruct (sql.failure db); simpl; [done|].
    intros [= <-]. by rewrite GetAll_loop.
  - intros Hdb. eexists. split_and!.
    + run. by rewrite (GetAll_healthy _ Hdb).
    + apply (StronglySorted_fmap _ sql.created_at_DESC); [by intros [] []|].
      apply StronglySorted_merge_sort; apply _.
    + by rewrite merge_sort_Permutation.
    + intros ->. by rewrite map_to_list_empty.
Qed.

(** A store that cannot serve requests makes get-all fail with the store's
    error wrapped. *)
Lemma GetAllTasks_failure (db : sql.DB) (err : error) :
  sql.failure db = Some err →
  service.GetAllTasks R db
  = (Err (Errorf_w "failed to get all tasks from repository: " err), db).
Proof. intros Hdb. run. run_sql. by rewrite Hdb. Qed.

(** ** Not found *)

(** Get-by-id of a missing row: the service's error carries the sentinel. *)
Lemma GetTask_not_found (db : sql.DB) (id : Z) :
  0 < id → sql.failure db = None → sql.tasks db !! id = None →
  ∃ err,
    service.GetTask R id db = (Err err, db) ∧
    err = Errorf_w "failed to get task from repository: " ErrTaskNotFound ∧
    Is err ErrTaskNotFound = true.
Proof.
  intros Hid Hdb Hrow. eexists. split_and!; [|done|].
  - run. rewrite (Zle_bool_pos _ Hid).
    by rewrite (GetByID_missing _ _ Hdb Hrow).
  - by rewrite Is_Errorf_w_ErrTaskNotFound.
Qed.

(** Get-by-id on a store that cannot serve requests: the store's error comes
    back wrapped, and it is a not-found error only if the store's error
    already was one. *)
Lemma GetTask_store_failure (db : sql.DB) (id : Z) (cause : error) :
  0 < id → sql.failure db = Some cause → cause ≠ sql_ErrNoRows →
  ∃ err,
    service.GetTask R id db = (Err err, db) ∧
    wraps err cause ∧
    Is err ErrTaskNotFound = Is cause ErrTaskNotFound.
Proof.
  intros Hid Hdb Hcause. eexists. split_and!.
  - run. rewrite (Zle_bool_pos _ Hid).
    by rewrite (GetByID_failure _ _ _ Hdb Hcause).
  - by apply wraps_Errorf_w.
  - by rewrite Is_Errorf_w_ErrTaskNotFound.
Qed.

(** Delete of a missing row: the error the service returns wraps a text and
    nothing else; [errors.Is] does not find the sentinel in it. *)
Lemma DeleteTask_not_found (db : sql.DB) (id : Z) :
  0 < id → sql.failure db = None → sql.tasks db !! id = None →
  ∃ err,
    service.DeleteTask R id db = (Some err, db) ∧
    err = Errorf_w "failed to delete task from repository: "
            (New ("task with ID " +:+ itoa id +:+ " not found for deletion")) ∧
    Is err ErrTaskNotFound = false.
Proof.
  intros Hid Hdb Hrow. eexists. split_and!; [|done|].
  - run. rewrite (Zle_bool_pos _ Hid).
    by rewrite (Delete_missing _ _ Hdb Hrow).
  - rewrite Is_Errorf_w_ErrTaskNotFound. cbn [Is]. by rewrite decide_False.
Qed.

(** Delete of an existing row succeeds and removes the row, so that a second
    delete of the same id finds nothing. *)
Lemma DeleteTask_found (db : sql.DB) (id : Z) (row : sql.Row) :
  0 < id → sql.failure db = None → sql.tasks db !! id = Some row →
  ∃ db',
    service.DeleteTask R id db = (None, db') ∧
    sql.failure db' = None ∧
    sql.tasks db' !! id = None ∧
    (∀ id', id' ≠ id → sql.tasks db' !! id' = sql.tasks db !! id').
Proof.
  intros Hid Hdb Hrow. eexists. split_and!.
  - run. rewrite (Zle_bool_pos _ Hid).
    by rewrite (Delete_found _ _ _ Hdb Hrow).
  - done.
  - apply lookup_delete_eq.
  - intros id' Hid'. simpl. by rewrite lookup_delete_ne.
Qed.

(** The texts the handlers compare with start with "task with ID"; the
    service's errors start with "invalid" or "failed".  No repository makes
    [GetTask] or [DeleteTask] answer 404. *)
Lemma handlers_GetTask_never_404 {S : Type} (repo : TaskRepository S)
    (atoi : result Z) (s : S) :
  http.StatusCode (handlers.GetTask repo atoi s).1 ≠ http.StatusNotFound.
Proof.
  unfold handlers.GetTask. destruct atoi as [id|e]; [|done]. run.
  destruct (id <=? 0); [done|].
  destruct (GetByID repo id s) as [[task|err] s']; done.
Qed.

Lemma handlers_DeleteTask_never_404 {S : Type} (repo : TaskRepository S)
    (atoi : result Z) (s : S) :
  http.StatusCode (handlers.DeleteTask repo atoi s).1 ≠ http.StatusNotFound.
Proof.
  unfold handlers.DeleteTask. destruct atoi as [id|e]; [|done]. run.
  destruct (id <=? 0); [done|].
  destruct (Delete repo id s) as [[err|] s']; done.
Qed.

(** ** The unit tests of the service, replayed *)

(** [TestUpdateTask_PartialUpdate] *)
Example TestUpdateTask_PartialUpdate :
  (service.UpdateTask
     (service_test.MockTaskRepository
        (service_test.mkReturns None (fun _ => Ok service_test.existingTask) (Ok None) None
                   (fun _ => None) 20))
     1 (UpdateTaskRequest.mk "" "" "completed") tt).1
  = Ok (mkTask 1 "Original Title" "Original Desc" "completed" 10 20).
Proof. reflexivity. Qed.

(** [TestUpdateTask_InvalidStatus], with [AssertNotCalled(t, "Update")]. *)
Example TestUpdateTask_InvalidStatus :
  service.UpdateTask
    (recording
       (service_test.MockTaskRepository
          (service_test.mkReturns None (fun _ => Ok service_test.existingTask) (Ok None) None
                     (fun _ => None) 20)))
    1 (UpdateTaskRequest.mk "" "" "invalid_status") (tt, [])
  = (Err (New "invalid status value"), (tt, [CallGetByID 1])).
Proof. reflexivity. Qed.

(** [TestCreateTask_RepoError], with [errors.Is(err, repoError)]. *)
Example TestCreateTask_RepoError :
  let repoError := New "database connection failed" in
  ∃ err,
    (service.CreateTask
       (service_test.MockTaskRepository
          (service_test.mkReturns (Some repoError) (fun _ => Err repoError) (Ok None)
                     None (fun _ => None) 20))
       (CreateTaskRequest.mk "Failing Task"
          "This task will fail at the repo layer.") tt).1
    = Err err ∧ Is err repoError = true.
Proof. eexists. split; reflexivity. Qed.

Example one_task_db_created :
  (service.CreateTask R (CreateTaskRequest.mk "Original Title" "Original Desc")
                      empty_db).2 = one_task_db.
Proof. reflexivity. Qed.

(** ** The not-found outcome at the handlers *)

(** C1. A task is deleted and deleted again.  The first delete succeeds;
    the second returns an error, but one that wraps only a text made on the
    spot: [errors.Is] does not find [ErrTaskNotFound] in it, as it does in
    the error get-by-id returns for the same id, and the handler, whose
    comparison of texts does not match, answers 500. *)
Theorem DeleteTask_already_deleted :
  let first := service.DeleteTask R 1 one_task_db in
  let second := service.DeleteTask R 1 first.2 in
  let err := Errorf_w "failed to delete task from repository: "
               (New "task with ID 1 not found for deletion") in
  let fetched := Errorf_w "failed to get task from repository: "
                   ErrTaskNotFound in
  first.1 = None ∧
  second.1 = Some err ∧
  Is err ErrTaskNotFound = false ∧
  (service.GetTask R 1 first.2).1 = Err fetched ∧
  Is fetched ErrTaskNotFound = true ∧
  http.StatusCode (handlers.DeleteTask R (Ok 1) first.2).1
  = http.StatusInternalServerError.
Proof. by vm_compute. Qed.

(** C2. Get-by-id of id 999 on an empty table.  The service returns an
    error in which [errors.Is] finds [ErrTaskNotFound]; the handler compares
    its text with "task with ID 999 not found", which it is not, and answers
    500 with the text of a failed retrieval. *)
Theorem GetTask_missing_answers_500 :
  let err := Errorf_w "failed to get task from repository: "
               ErrTaskNotFound in
  service.GetTask R 999 empty_db = (Err err, empty_db) ∧
  Is err ErrTaskNotFound = true ∧
  (handlers.GetTask R (Ok 999) empty_db).1
  = http.Error ("failed to retrieve task: failed to get task from repository: "
                  +:+ "task not found")
               http.StatusInternalServerError.
Proof. by vm_compute. Qed.

(** ** The theorems at concrete requests *)

Lemma CreateTask_empty_title_witness :
  CreateTaskRequest.Title (CreateTaskRequest.mk "" "Test Description") = "" ∧
  service.CreateTask (recording R) (CreateTaskRequest.mk "" "Test Description")
                     (empty_db, [])
  = (Err (New "title is required"), (empty_db, [])).
Proof. split; [reflexivity|]. apply CreateTask_empty_title. reflexivity. Defined.

Lemma invalid_task_ID_witness :
  -3 <= 0 ∧
  service.GetTask (recording R) (-3) (one_task_db, [])
  = (Err (New "invalid task ID"), (one_task_db, [])) ∧
  service.UpdateTask (recording R) (-3) (UpdateTaskRequest.mk "X" "" "")
                     (one_task_db, [])
  = (Err (New "invalid task ID"), (one_task_db, [])) ∧
  service.DeleteTask (recording R) (-3) (one_task_db, [])
  = (Some (New "invalid task ID"), (one_task_db, [])).
Proof. split; [lia|]. apply invalid_task_ID. lia. Defined.

Lemma CreateTask_pending_witness :
  CreateTaskRequest.Title
    (CreateTaskRequest.mk "My New Task" "This is a test task.") ≠ "" ∧
  ∃ task,
    (service.CreateTask (recording R)
       (CreateTaskRequest.mk "My New Task" "This is a test task.")
       (empty_db, [])).1 = Ok task ∧
    Status task = "pending" ∧ ID task = 1 ∧
    CreatedAt task = 100 ∧ UpdatedAt task = 100.
Proof.
  assert (CreateTaskRequest.Title
            (CreateTaskRequest.mk "My New Task" "This is a test task.") ≠ "")
    as Htitle by (simpl; discriminate).
  split; [exact Htitle|].
  destruct (CreateTask_pending
              (CreateTaskRequest.mk "My New Task" "This is a test task.")
              empty_db [] Htitle) as (_ & _ & Hsucceeds).
  eexists. split; [apply (Hsucceeds 1 100 100); reflexivity|].
  by split_and!.
Defined.


Lemma UpdateTask_not_found_witness :
  (0 < 99 ∧ int4 99 ∧ sql.failure one_task_db = None ∧
   sql.tasks one_task_db !! 99 = None) ∧
  ∃ err,
    service.UpdateTask (recording R) 99 (UpdateTaskRequest.mk "New Title" "" "")
                       (one_task_db, [])
    = (Err err, (one_task_db, [CallGetByID 99])) ∧
    err = Errorf_w "task with ID 99 not found: " ErrTaskNotFound ∧
    Is err ErrTaskNotFound = true.
Proof.
  assert (int4 99) as Hrange by (unfold int4; lia).
  split; [by split_and!|].
  apply (UpdateTask_not_found one_task_db [] 99
           (UpdateTaskRequest.mk "New Title" "" ""));
    [lia|exact Hrange|reflexivity..].
Defined.

Lemma UpdateTask_empty_request_writes_witness :
  (0 < 1 ∧ sql.failure one_task_db = None ∧
   sql.tasks one_task_db !! 1
   = Some (sql.mkRow "Original Title" "Original Desc" "pending" 100 100)) ∧
  let out :=
    service.UpdateTask (recording R) 1 (UpdateTaskRequest.mk "" "" "")
                       (one_task_db, []) in
  out.2.2 = [CallGetByID 1;
             CallUpdate (mkTask 1 "Original Title" "Original Desc" "pending"
                                100 100)] ∧
  out.1 = Ok (mkTask 1 "Original Title" "Original Desc" "pending" 100 101) ∧
  sql.tasks out.2.1 !! 1
  = Some (sql.mkRow "Original Title" "Original Desc" "pending" 100 101).
Proof.
  split; [by split_and!|].
  apply (UpdateTask_empty_request_writes one_task_db [] 1
           (sql.mkRow "Original Title" "Original Desc" "pending" 100 100));
    [lia|reflexivity..].
Defined.

Lemma GetAllTasks_newest_first_witness :
  let one := mkTask 1 "Task One" "Desc One" "pending" 100 100 in
  let two := mkTask 2 "Task Two" "Desc Two" "completed" 101 101 in
  (sql.failure two_task_db = None ∧ sql.failure empty_db = None) ∧
  service.GetAllTasks R two_task_db = (Ok (Some [two; one]), two_task_db) ∧
  StronglySorted newest_first [two; one] ∧
  service.GetAllTasks R empty_db = (Ok (Some []), empty_db).
Proof.
  intros one two. split; [split; reflexivity|].
  destruct (GetAllTasks_newest_first two_task_db) as [Hdelivered Hhealthy].
  destruct (Hhealthy eq_refl) as (tasks & Hout & Hsorted & _ & _).
  assert (service.GetAllTasks R two_task_db
          = (Ok (Some [two; one]), two_task_db)) as Htwo
    by (apply Hdelivered; reflexivity).
  rewrite Htwo in Hout. injection Hout as <-.
  destruct (GetAllTasks_newest_first empty_db) as [_ Hempty].
  destruct (Hempty eq_refl) as (none & Hnone & _ & _ & Hnil).
  rewrite (Hnil eq_refl) in Hnone. by split_and!.
Defined.

Lemma service_wraps_gateway_error_witness :
  let cause := New "database connection failed" in
  let fetched :=
    service_test.MockTaskRepository
      (service_test.mkReturns None (fun _ => Ok service_test.existingTask)
                              (Ok None) (Some cause) (fun _ => None) 20) in
  (∃ err,
     (service.CreateTask R (CreateTaskRequest.mk "Failing Task" "") failing_db).1
     = Err err ∧ wraps err cause) ∧
  (∃ err, (service.GetTask R 1 failing_db).1 = Err err ∧ wraps err cause) ∧
  (∃ err, (service.GetAllTasks R failing_db).1 = Err err ∧ wraps err cause) ∧
  (∃ err,
     (service.UpdateTask R 1 (UpdateTaskRequest.mk "X" "" "") failing_db).1
     = Err err ∧ wraps err cause) ∧
  (∃ err,
     (service.UpdateTask fetched 1 (UpdateTaskRequest.mk "X" "" "") tt).1
     = Err err ∧ wraps err cause) ∧
  (∃ err, (service.DeleteTask R 1 failing_db).1 = Some err ∧ wraps err cause).
Proof.
  intros cause fetched.
  destruct (service_wraps_gateway_error R failing_db cause)
    as (Hcreate & Hget & Hall & Hfetch & _ & Hdelete).
  destruct (service_wraps_gateway_error fetched tt cause)
    as (_ & _ & _ & _ & Hwrite & _).
  split_and!.
  - eapply Hcreate; [discriminate|reflexivity].
  - apply Hget; [lia|reflexivity].
  - apply Hall. reflexivity.
  - apply Hfetch; [lia|reflexivity].
  - eapply Hwrite; [lia|reflexivity..].
  - apply Hdelete; [lia|reflexivity].
Defined.

(** * Further properties of the repository, the service and the routes *)

(** ** What each operation does to the store *)

Lemma GetTask_store (id : Z) (db : sql.DB) : (service.GetTask R id db).2 = db.
Proof.
  run. destruct (id <=? 0); [done|]. run_sql.
  destruct (sql.failure db) as [err|]; simpl.
  - by destruct (decide (err = sql_ErrNoRows)).
  - by destruct (sql.tasks db !! id).
Qed.

Lemma GetAllTasks_store (db : sql.DB) : (service.GetAllTasks R db).2 = db.
Proof. run. run_sql. by destruct (sql.failure db). Qed.

Lemma CreateTask_store (req : CreateTaskRequest.t) (db : sql.DB) :
  (service.CreateTask R req db).2 = db ∨
  (CreateTaskRequest.Title req ≠ "" ∧ sql.failure db = None ∧
   (service.CreateTask R req db).2
   = sql.mkDB (<[sql.tasks_id_seq db :=
                   sql.mkRow (CreateTaskRequest.Title req)
                             (CreateTaskRequest.Description req)
                             "pending" (sql.clock db) (sql.clock db)]>
                 (sql.tasks db))
              (sql.tasks_id_seq db + 1) (sql.clock db + 1) None).
Proof.
  run. destruct (String.eqb _ _) eqn:Htitle; [by left|].
  apply String.eqb_neq in Htitle.
  destruct (sql.failure db) as [err|] eqn:Hdb.
  - rewrite (Create_failure _ _ _ Hdb). by left.
  - rewrite (Create_healthy _ _ Hdb). by right.
Qed.

Lemma UpdateTask_store (id : Z) (req : UpdateTaskRequest.t) (db : sql.DB) :
  (service.UpdateTask R id req db).2 = db ∨
  ∃ row,
    0 < id ∧ sql.failure db = None ∧ sql.tasks db !! id = Some row ∧
    (UpdateTaskRequest.Status req = "" ∨
       in_enumeration (UpdateTaskRequest.Status req)) ∧
    (service.UpdateTask R id req db).2
    = sql.mkDB (<[id :=
                    sql.mkRow
                      (override (UpdateTaskRequest.Title req) (sql.title row))
                      (override (UpdateTaskRequest.Description req)
                                (sql.description row))
                      (override (UpdateTaskRequest.Status req) (sql.status row))
                      (sql.created_at row) (sql.clock db)]> (sql.tasks db))
               (sql.tasks_id_seq db) (sql.clock db + 1) None.
Proof.
  run. destruct (id <=? 0) eqn:Hid; [by left|]. apply Z.leb_gt in Hid.
  destruct (sql.failure db) as [err|] eqn:Hdb.
  { left. run_sql. rewrite Hdb. simpl.
    by destruct (decide (err = sql_ErrNoRows)). }
  destruct (sql.tasks db !! id) as [row|] eqn:Hrow.
  2: { left. by rewrite (GetByID_missing _ _ Hdb Hrow). }
  rewrite (GetByID_found _ _ _ Hdb Hrow).
  destruct (decide (UpdateTaskRequest.Status req = "" ∨
                    (UpdateTaskRequest.Status req = "pending" ∨
                     UpdateTaskRequest.Status req = "in_progress" ∨
                     UpdateTaskRequest.Status req = "completed")))
    as [Hstatus|Hstatus].
  - right. exists row. rewrite (UpdateTask_apply_accepts _ _ Hstatus). simpl.
    rewrite (Update_found db _ row Hdb) by done. by split_and!.
  - left. rewrite UpdateTask_apply_rejects; [done|tauto|].
    unfold in_enumeration. tauto.
Qed.

Lemma DeleteTask_store (id : Z) (db : sql.DB) :
  (service.DeleteTask R id db).2 = db ∨
  (0 < id ∧ sql.failure db = None ∧ is_Some (sql.tasks db !! id) ∧
   (service.DeleteTask R id db).2
   = sql.with_tasks db (delete id (sql.tasks db))).
Proof.
  run. destruct (id <=? 0) eqn:Hid; [by left|]. apply Z.leb_gt in Hid.
  destruct (sql.failure db) as [err|] eqn:Hdb.
  { left. run_sql. by rewrite Hdb. }
  destruct (sql.tasks db !! id) as [row|] eqn:Hrow.
  - right. rewrite (Delete_found _ _ _ Hdb Hrow). by split_and!.
  - left. by rewrite (Delete_missing _ _ Hdb Hrow).
Qed.

(** A handler leaves the store as the service operation it calls left it. *)
Section handlers_store.
Context {S : Type} (repo : TaskRepository S).
Implicit Types (s : S).

Lemma handlers_CreateTask_store decoded s :
  (handlers.CreateTask repo decoded s).2
  = match decoded with
    | Ok req => (service.CreateTask repo req s).2
    | Err _ => s
    end.
Proof.
  unfold handlers.CreateTask. destruct decoded as [req|e]; [|done].
  unfold mbind, M_bind, mret, M_ret.
  by destruct (service.CreateTask repo req s) as [[task|err] s'].
Qed.

Lemma handlers_GetTask_store atoi s :
  (handlers.GetTask repo atoi s).2
  = match atoi with
    | Ok id => (service.GetTask repo id s).2
    | Err _ => s
    end.
Proof.
  unfold handlers.GetTask. destruct atoi as [id|e]; [|done].
  unfold mbind, M_bind, mret, M_ret.
  destruct (service.GetTask repo id s) as [[task|err] s']; [done|].
  by destruct (String.eqb _ _).
Qed.

Lemma handlers_GetAllTasks_store s :
  (handlers.GetAllTasks repo s).2 = (service.GetAllTasks repo s).2.
Proof.
  unfold handlers.GetAllTasks, mbind, M_bind, mret, M_ret.
  by destruct (service.GetAllTasks repo s) as [[tasks|err] s'].
Qed.

Lemma handlers_UpdateTask_store atoi decoded s :
  (handlers.UpdateTask repo atoi decoded s).2
  = match atoi, decoded with
    | Ok id, Ok req => (service.UpdateTask repo id req s).2
    | _, _ => s
    end.
Proof.
  unfold handlers.UpdateTask. destruct atoi as [id|e]; [|done].
  destruct decoded as [req|e]; [|done].
  unfold mbind, M_bind, mret, M_ret.
  destruct (service.UpdateTask repo id req s) as [[task|err] s']; [done|].
  destruct (_ || _); [done|]. by destruct (String.eqb _ _).
Qed.

Lemma handlers_DeleteTask_store atoi s :
  (handlers.DeleteTask repo atoi s).2
  = match atoi with
    | Ok id => (service.DeleteTask repo id s).2
    | Err _ => s
    end.
Proof.
  unfold handlers.DeleteTask. destruct atoi as [id|e]; [|done].
  unfold mbind, M_bind, mret, M_ret.
  destruct (service.DeleteTask repo id s) as [[err|] s']; [|done].
  by destruct (String.eqb _ _).
Qed.

End handlers_store.

(** ** Sessions *)

Lemma serve_cons_store {S : Type} (repo : TaskRepository S)
    (r : main.Request) (rs : list main.Request) (s : S) :
  (main.serve repo (r :: rs) s).2
  = (main.serve repo rs (main.ServeHTTP repo r s).2).2.
Proof.
  simpl. unfold mbind, M_bind, mret, M_ret.
  destruct (main.ServeHTTP repo r s) as [w s1]. simpl.
  by destruct (main.serve repo rs s1) as [ws s2].
Qed.

(** What every request keeps, a session keeps. *)
Lemma serve_invariant {S : Type} (repo : TaskRepository S) (P : S → Prop) :
  (∀ r s, P s → P (main.ServeHTTP repo r s).2) →
  ∀ rs s, P s → P (main.serve repo rs s).2.
Proof.
  intros Hstep rs. induction rs as [|r rs IH]; intros s Hs; [done|].
  rewrite serve_cons_store. by apply IH, Hstep.
Qed.

Lemma ServeHTTP_store_cases (P : sql.DB → Prop) (db : sql.DB) :
  P db →
  (∀ req, P (service.CreateTask R req db).2) →
  (∀ id req, P (service.UpdateTask R id req db).2) →
  (∀ id, P (service.DeleteTask R id db).2) →
  ∀ r, P (main.ServeHTTP R r db).2.
Proof.
  intros Hdb Hcreate Hupdate Hdelete [decoded| |atoi|atoi decoded|atoi|]; simpl.
  - rewrite handlers_CreateTask_store. by destruct decoded.
  - by rewrite handlers_GetAllTasks_store, GetAllTasks_store.
  - rewrite handlers_GetTask_store. destruct atoi; [|done].
    by rewrite GetTask_store.
  - rewrite handlers_UpdateTask_store. by destruct atoi, decoded.
  - rewrite handlers_DeleteTask_store. by destruct atoi.
  - done.
Qed.

(** ** Titles and statuses *)

Lemma override_nonempty (requested current : string) :
  current ≠ "" → override requested current ≠ "".
Proof.
  unfold override. intros Hcurrent.
  destruct (String.eqb requested "") eqn:Hreq; [done|].
  by apply String.eqb_neq.
Qed.

Lemma override_in_enumeration (requested current : string) :
  requested = "" ∨ in_enumeration requested →
  in_enumeration current → in_enumeration (override requested current).
Proof.
  unfold override. intros [-> | Hreq] Hcurrent; [done|].
  destruct (String.eqb requested ""); done.
Qed.

Lemma rows_valid_CreateTask (req : CreateTaskRequest.t) (db : sql.DB) :
  rows_valid db → rows_valid (service.CreateTask R req db).2.
Proof.
  intros Hvalid.
  destruct (CreateTask_store req db) as [-> | (Htitle & _ & ->)]; [done|].
  apply map_Forall_insert_2; [|done].
  split; [done|]. by left.
Qed.

Lemma rows_valid_UpdateTask (id : Z) (req : UpdateTaskRequest.t) (db : sql.DB) :
  rows_valid db → rows_valid (service.UpdateTask R id req db).2.
Proof.
  intros Hvalid.
  destruct (UpdateTask_store id req db)
    as [-> | (row & _ & _ & Hrow & Hstatus & ->)]; [done|].
  destruct (Hvalid id row Hrow) as [Htitle Henum].
  apply map_Forall_insert_2; [|done]. split; simpl.
  - by apply override_nonempty.
  - by apply override_in_enumeration.
Qed.

Lemma rows_valid_DeleteTask (id : Z) (db : sql.DB) :
  rows_valid db → rows_valid (service.DeleteTask R id db).2.
Proof.
  intros Hvalid.
  destruct (DeleteTask_store id db) as [-> | (_ & _ & _ & ->)]; [done|].
  by apply map_Forall_delete.
Qed.

(** X1. Whatever requests reach the routes and in whatever order, if every
    row of the table has a non-empty title and a status among "pending",
    "in_progress" and "completed" before, every row has them after. *)
Theorem serve_rows_valid (rs : list main.Request) (db : sql.DB) :
  rows_valid db → rows_valid (main.serve R rs db).2.
Proof.
  revert db. apply serve_invariant. intros r db Hvalid.
  apply ServeHTTP_store_cases; auto using rows_valid_CreateTask,
    rows_valid_UpdateTask, rows_valid_DeleteTask.
Qed.

(** ** Ids and timestamps *)

Lemma consistent_CreateTask (req : CreateTaskRequest.t) (db : sql.DB) :
  consistent db → consistent (service.CreateTask R req db).2.
Proof.
  intros [Hseq Hrows].
  destruct (CreateTask_store req db) as [-> | (_ & _ & ->)]; [done|].
  split; simpl; [lia|]. apply map_Forall_insert_2.
  - unfold row_consistent. simpl. lia.
  - eapply map_Forall_impl; [exact Hrows|].
    unfold row_consistent. simpl. intros id row. lia.
Qed.

Lemma consistent_UpdateTask (id : Z) (req : UpdateTaskRequest.t) (db : sql.DB) :
  consistent db → consistent (service.UpdateTask R id req db).2.
Proof.
  intros [Hseq Hrows].
  destruct (UpdateTask_store id req db)
    as [-> | (row & _ & _ & Hrow & _ & ->)]; [done|].
  pose proof (Hrows id row Hrow) as Hold. unfold row_consistent in Hold.
  split; simpl; [done|]. apply map_Forall_insert_2.
  - unfold row_consistent. simpl. lia.
  - eapply map_Forall_impl; [exact Hrows|].
    unfold row_consistent. simpl. intros id' row'. lia.
Qed.

Lemma consistent_DeleteTask (id : Z) (db : sql.DB) :
  consistent db → consistent (service.DeleteTask R id db).2.
Proof.
  intros [Hseq Hrows].
  destruct (DeleteTask_store id db) as [-> | (_ & _ & _ & ->)]; [done|].
  split; simpl; [done|]. by apply map_Forall_delete.
Qed.

(** X2. Whatever requests reach the routes and in whatever order, a table
    whose ids are positive and below the sequence and whose rows have
    created_at no later than updated_at, itself before the clock, stays
    so. *)
Theorem serve_consistent (rs : list main.Request) (db : sql.DB) :
  consistent db → consistent (main.serve R rs db).2.
Proof.
  revert db. apply serve_invariant. intros r db Hconsistent.
  apply ServeHTTP_store_cases; auto using consistent_CreateTask,
    consistent_UpdateTask, consistent_DeleteTask.
Qed.

(** ** Requests that only read, stores that cannot serve *)

(** X3. The three GET routes leave the store exactly as it was, whatever
    the id and whatever the outcome. *)
Theorem GET_routes_read_only (db : sql.DB) (atoi : result Z) :
  (main.ServeHTTP R main.GET_tasks db).2 = db ∧
  (main.ServeHTTP R (main.GET_task atoi) db).2 = db ∧
  (main.ServeHTTP R main.GET_health db).2 = db.
Proof.
  simpl. split_and!; [| |done].
  - by rewrite handlers_GetAllTasks_store, GetAllTasks_store.
  - rewrite handlers_GetTask_store. destruct atoi; [|done].
    by rewrite GetTask_store.
Qed.

Lemma failing_store_unchanged (db : sql.DB) (cause : error) (r : main.Request) :
  sql.failure db = Some cause → (main.ServeHTTP R r db).2 = db.
Proof.
  intros Hdb. apply (ServeHTTP_store_cases (fun db' => db' = db)); [done|..].
  - intros req. destruct (CreateTask_store req db) as [?|(_ & ? & _)];
      [done|congruence].
  - intros id req. destruct (UpdateTask_store id req db)
      as [?|(row & _ & ? & _)]; [done|congruence].
  - intros id. destruct (DeleteTask_store id db) as [?|(_ & ? & _)];
      [done|congruence].
Qed.

Lemma failing_store_service_errors (db : sql.DB) (cause : error) :
  sql.failure db = Some cause →
  (∀ req, ∃ err, (service.CreateTask R req db).1 = Err err) ∧
  (∀ id, ∃ err, (service.GetTask R id db).1 = Err err) ∧
  (∃ err, (service.GetAllTasks R db).1 = Err err) ∧
  (∀ id req, ∃ err, (service.UpdateTask R id req db).1 = Err err) ∧
  (∀ id, ∃ err, (service.DeleteTask R id db).1 = Some err).
Proof.
  intros Hdb. split_and!.
  - intros req. run. destruct (String.eqb _ _); [by eexists|].
    rewrite (Create_failure _ _ _ Hdb). by eexists.
  - intros id. run. destruct (id <=? 0); [by eexists|]. run_sql.
    rewrite Hdb. simpl. destruct (decide (cause = sql_ErrNoRows)); by eexists.
  - run. run_sql. rewrite Hdb. by eexists.
  - intros id req. run. destruct (id <=? 0); [by eexists|]. run_sql.
    rewrite Hdb. simpl. destruct (decide (cause = sql_ErrNoRows)); by eexists.
  - intros id. run. destruct (id <=? 0); [by eexists|]. run_sql.
    rewrite Hdb. by eexists.
Qed.

(** X4. While the store cannot serve requests, every route of the task API
    answers with an error status (400 or above) and the store is left as it
    was. *)
Theorem failing_store_answers_errors (db : sql.DB) (cause : error)
    (r : main.Request) :
  sql.failure db = Some cause → r ≠ main.GET_health →
  400 <= http.StatusCode (main.ServeHTTP R r db).1 ∧
  (main.ServeHTTP R r db).2 = db.
Proof.
  intros Hdb Hr. split; [|by eapply failing_store_unchanged].
  destruct (failing_store_service_errors db cause Hdb)
    as (Hcreate & Hget & Hall & Hupdate & Hdelete).
  destruct r as [decoded| |atoi|atoi decoded|atoi|]; simpl; [..|done].
  - unfold handlers.CreateTask. destruct decoded as [req|e]; [|done].
    destruct (Hcreate req) as [err Herr].
    unfold mbind, M_bind, mret, M_ret.
    destruct (service.CreateTask R req db) as [res db']. simpl in Herr.
    by subst res.
  - unfold handlers.GetAllTasks. destruct Hall as [err Herr].
    unfold mbind, M_bind, mret, M_ret.
    destruct (service.GetAllTasks R db) as [res db']. simpl in Herr.
    by subst res.
  - unfold handlers.GetTask. destruct atoi as [id|e]; [|done].
    destruct (Hget id) as [err Herr].
    unfold mbind, M_bind, mret, M_ret.
    destruct (service.GetTask R id db) as [res db']. simpl in Herr.
    subst res. by destruct (String.eqb _ _).
  - unfold handlers.UpdateTask. destruct atoi as [id|e]; [|done].
    destruct decoded as [req|e]; [|done].
    destruct (Hupdate id req) as [err Herr].
    unfold mbind, M_bind, mret, M_ret.
    destruct (service.UpdateTask R id req db) as [res db']. simpl in Herr.
    subst res. destruct (_ || _); [done|]. by destruct (String.eqb _ _).
  - unfold handlers.DeleteTask. destruct atoi as [id|e]; [|done].
    destruct (Hdelete id) as [err Herr].
    unfold mbind, M_bind, mret, M_ret.
    destruct (service.DeleteTask R id db) as [res db']. simpl in Herr.
    subst res. by destruct (String.eqb _ _).
Qed.

(** ** The overrides of an update, on their own *)

Lemma UpdateTask_apply_Ok (existingTask task : Task) (req : UpdateTaskRequest.t) :
  service.UpdateTask_apply existingTask req = Ok task →
  (UpdateTaskRequest.Status req = "" ∨
     in_enumeration (UpdateTaskRequest.Status req)) ∧
  task = mkTask (ID existingTask)
           (override (UpdateTaskRequest.Title req) (Title existingTask))
           (override (UpdateTaskRequest.Description req)
                     (Description existingTask))
           (override (UpdateTaskRequest.Status req) (Status existingTask))
           (CreatedAt existingTask) (UpdatedAt existingTask).
Proof.
  intros Happly.
  destruct (decide (UpdateTaskRequest.Status req = "" ∨
                    (UpdateTaskRequest.Status req = "pending" ∨
                     UpdateTaskRequest.Status req = "in_progress" ∨
                     UpdateTaskRequest.Status req = "completed")))
    as [Hstatus|Hstatus].
  - split; [done|]. rewrite (UpdateTask_apply_accepts _ _ Hstatus) in Happly.
    by injection Happly.
  - rewrite UpdateTask_apply_rejects in Happly; [done|tauto|].
    unfold in_enumeration. tauto.
Qed.

Lemma override_override (requested current : string) :
  override requested (override requested current) = override requested current.
Proof. unfold override. by destruct (String.eqb requested ""). Qed.

(** X5. Applying the overrides of one update request a second time changes
    nothing more: the task accepted once is accepted again and comes out the
    same.  The overrides never touch the id or the timestamps. *)
Theorem UpdateTask_apply_idempotent (existingTask task : Task)
    (req : UpdateTaskRequest.t) :
  service.UpdateTask_apply existingTask req = Ok task →
  service.UpdateTask_apply task req = Ok task ∧
  ID task = ID existingTask ∧
  CreatedAt task = CreatedAt existingTask ∧
  UpdatedAt task = UpdatedAt existingTask.
Proof.
  intros Happly. destruct (UpdateTask_apply_Ok _ _ _ Happly) as [Hstatus ->].
  rewrite (UpdateTask_apply_accepts _ _ Hstatus). simpl.
  by rewrite !override_override.
Qed.

(** X6. No update request empties a field or takes the status out of the
    enumeration: in the task the overrides accept, a title or a description
    that was non-empty is non-empty, and a status that was one of the three
    values is one of them. *)
Theorem UpdateTask_apply_never_clears (existingTask task : Task)
    (req : UpdateTaskRequest.t) :
  service.UpdateTask_apply existingTask req = Ok task →
  (Title existingTask ≠ "" → Title task ≠ "") ∧
  (Description existingTask ≠ "" → Description task ≠ "") ∧
  (in_enumeration (Status existingTask) → in_enumeration (Status task)).
Proof.
  intros Happly. destruct (UpdateTask_apply_Ok _ _ _ Happly) as [Hstatus ->].
  simpl. split_and!.
  - apply override_nonempty.
  - apply override_nonempty.
  - by apply override_in_enumeration.
Qed.

(** ** Round trips through the store *)

Lemma CreateTask_Ok (req : CreateTaskRequest.t) (db db' : sql.DB) (task : Task) :
  service.CreateTask R req db = (Ok task, db') →
  CreateTaskRequest.Title req ≠ "" ∧ sql.failure db = None ∧
  task = mkTask (sql.tasks_id_seq db) (CreateTaskRequest.Title req)
           (CreateTaskRequest.Description req) "pending"
           (sql.clock db) (sql.clock db) ∧
  db' = sql.mkDB (<[sql.tasks_id_seq db :=
                      sql.mkRow (CreateTaskRequest.Title req)
                                (CreateTaskRequest.Description req)
                                "pending" (sql.clock db) (sql.clock db)]>
                    (sql.tasks db))
                 (sql.tasks_id_seq db + 1) (sql.clock db + 1) None.
Proof.
  run. destruct (String.eqb _ _) eqn:Htitle; [done|].
  apply String.eqb_neq in Htitle.
  destruct (sql.failure db) as [err|] eqn:Hdb.
  - by rewrite (Create_failure _ _ _ Hdb).
  - rewrite (Create_healthy _ _ Hdb). simpl. intros [= <- <-]. done.
Qed.

Lemma UpdateTask_Ok (id : Z) (req : UpdateTaskRequest.t) (db db' : sql.DB)
    (task : Task) :
  service.UpdateTask R id req db = (Ok task, db') →
  ∃ row,
    0 < id ∧ sql.failure db = None ∧ sql.tasks db !! id = Some row ∧
    (UpdateTaskRequest.Status req = "" ∨
       in_enumeration (UpdateTaskRequest.Status req)) ∧
    task = mkTask id
             (override (UpdateTaskRequest.Title req) (sql.title row))
             (override (UpdateTaskRequest.Description req)
                       (sql.description row))
             (override (UpdateTaskRequest.Status req) (sql.status row))
             (sql.created_at row) (sql.clock db) ∧
    db' = sql.mkDB (<[id := sql.mkRow (Title task) (Description task)
                                      (Status task) (sql.created_at row)
                                      (sql.clock db)]> (sql.tasks db))
                   (sql.tasks_id_seq db) (sql.clock db + 1) None.
Proof.
  run. destruct (id <=? 0) eqn:Hid; [done|]. apply Z.leb_gt in Hid.
  destruct (sql.failure db) as [err|] eqn:Hdb.
  { run_sql. rewrite Hdb. simpl. by destruct (decide (err = sql_ErrNoRows)). }
  destruct (sql.tasks db !! id) as [row|] eqn:Hrow.
  2: { by rewrite (GetByID_missing _ _ Hdb Hrow). }
  rewrite (GetByID_found _ _ _ Hdb Hrow).
  destruct (service.UpdateTask_apply _ req) as [task'|err] eqn:Happly; [|done].
  destruct (UpdateTask_apply_Ok _ _ _ Happly) as [Hstatus ->]. simpl.
  rewrite (Update_found db _ row Hdb) by done. simpl.
  intros [= <- <-]. exists row. by split_and!.
Qed.

Lemma DeleteTask_None (id : Z) (db db' : sql.DB) :
  service.DeleteTask R id db = (None, db') →
  ∃ row,
    0 < id ∧ sql.failure db = None ∧ sql.tasks db !! id = Some row ∧
    db' = sql.with_tasks db (delete id (sql.tasks db)).
Proof.
  run. destruct (id <=? 0) eqn:Hid; [done|]. apply Z.leb_gt in Hid.
  destruct (sql.failure db) as [err|] eqn:Hdb.
  { run_sql. by rewrite Hdb. }
  destruct (sql.tasks db !! id) as [row|] eqn:Hrow.
  - rewrite (Delete_found _ _ _ Hdb Hrow). intros [= <-]. by exists row.
  - by rewrite (Delete_missing _ _ Hdb Hrow).
Qed.

(** X7. A task that was just created, with a title that fits the title
    column, is what get-by-id returns for its id: same id, title,
    description, status and timestamps. *)
Theorem CreateTask_then_GetTask (req : CreateTaskRequest.t) (db db' : sql.DB)
    (task : Task) :
  0 < sql.tasks_id_seq db →
  fits_title (CreateTaskRequest.Title req) →
  service.CreateTask R req db = (Ok task, db') →
  service.GetTask R (ID task) db' = (Ok task, db').
Proof.
  intros Hseq _ Hcreate.
  destruct (CreateTask_Ok _ _ _ _ Hcreate) as (_ & _ & -> & ->). simpl.
  run. rewrite (Zle_bool_pos _ Hseq).
  by rewrite (GetByID_found _ _
                (sql.mkRow (CreateTaskRequest.Title req)
                           (CreateTaskRequest.Description req) "pending"
                           (sql.clock db) (sql.clock db)))
    by (done || apply lookup_insert_eq).
Qed.


(** X9. After a delete that succeeded, get-by-id of that id fails with an
    error in which [errors.Is] finds [ErrTaskNotFound], a second delete of
    it fails too, and every other row is as it was. *)
Theorem DeleteTask_then_gone (id : Z) (db db' : sql.DB) :
  service.DeleteTask R id db = (None, db') →
  (∃ err, service.GetTask R id db' = (Err err, db') ∧
          Is err ErrTaskNotFound = true) ∧
  (∃ err, service.DeleteTask R id db' = (Some err, db')) ∧
  (∀ id', id' ≠ id → sql.tasks db' !! id' = sql.tasks db !! id').
Proof.
  intros Hdelete.
  destruct (DeleteTask_None _ _ _ Hdelete) as (row & Hid & Hdb & Hrow & ->).
  set (db' := sql.with_tasks db (delete id (sql.tasks db))).
  assert (sql.tasks db' !! id = None) as Hgone by apply lookup_delete_eq.
  assert (sql.failure db' = None) as Hdb' by done.
  split_and!.
  - destruct (GetTask_not_found db' id Hid Hdb' Hgone) as (err & ? & _ & ?).
    by exists err.
  - destruct (DeleteTask_not_found db' id Hid Hdb' Hgone) as (err & ? & _).
    by exists err.
  - intros id' Hid'. simpl. by rewrite lookup_delete_ne.
Qed.

(** ** Get-all against get-by-id *)

Lemma columns_ID (x : Z * sql.Row) : ID (sql.columns x) = x.1.
Proof. done. Qed.

Lemma columns_inj (x y : Z * sql.Row) : sql.columns x = sql.columns y → x = y.
Proof.
  destruct x as [i [t d s c u]], y as [j [t' d' s' c' u']].
  unfold sql.columns. simpl. by intros [= -> -> -> -> -> ->].
Qed.

Lemma GetAllTasks_healthy (db : sql.DB) :
  sql.failure db = None →
  service.GetAllTasks R db
  = (Ok (Some (sql.columns <$>
                 merge_sort sql.created_at_DESC (map_to_list (sql.tasks db)))),
     db).
Proof. intros Hdb. run. by rewrite (GetAll_healthy _ Hdb). Qed.

Lemma columns_IDs (rows : list (Z * sql.Row)) :
  ID <$> (sql.columns <$> rows) = rows.*1.
Proof. induction rows as [|x rows IH]; [done|]. csimpl. by rewrite IH. Qed.

(** X10. On a store that serves requests, the list get-all returns and
    get-by-id agree: a task is in the list exactly when the repository's
    [GetByID] returns that very task for its id.  No id occurs twice in the
    list, and the list is as long as the table. *)
Theorem GetAllTasks_agrees_with_GetByID (db : sql.DB) :
  sql.failure db = None →
  ∃ tasks,
    service.GetAllTasks R db = (Ok (Some tasks), db) ∧
    (∀ task, task ∈ tasks ↔
             taskRepository.GetByID (ID task) db = (Ok task, db)) ∧
    NoDup (ID <$> tasks) ∧
    length tasks = size (sql.tasks db).
Proof.
  intros Hdb. eexists. split_and!.
  - run. by rewrite (GetAll_healthy _ Hdb).
  - intros task. rewrite list_elem_of_fmap. split.
    + intros ([id row] & -> & Hin).
      rewrite merge_sort_Permutation in Hin.
      apply elem_of_map_to_list in Hin. simpl.
      by rewrite (GetByID_found _ _ _ Hdb Hin).
    + intros Hget. destruct (sql.tasks db !! ID task) as [row|] eqn:Hrow.
      * rewrite (GetByID_found _ _ _ Hdb Hrow) in Hget.
        injection Hget as Htask. exists (ID task, row). split; [done|].
        rewrite merge_sort_Permutation. by apply elem_of_map_to_list.
      * by rewrite (GetByID_missing _ _ Hdb Hrow) in Hget.
  - rewrite columns_IDs, merge_sort_Permutation.
    apply NoDup_fst_map_to_list.
  - rewrite length_fmap, merge_sort_Permutation. apply length_map_to_list.
Qed.

(** ** Create, in a consistent store *)

(** X11. In a consistent store, a create that succeeds uses an id no row
    had: every row that was there is still there unchanged, and the table
    has one row more. *)
Theorem CreateTask_fresh_id (req : CreateTaskRequest.t) (db db' : sql.DB)
    (task : Task) :
  consistent db →
  service.CreateTask R req db = (Ok task, db') →
  sql.tasks db !! ID task = None ∧
  (∀ id row, sql.tasks db !! id = Some row → sql.tasks db' !! id = Some row) ∧
  size (sql.tasks db') = Datatypes.S (size (sql.tasks db)).
Proof.
  intros [Hseq Hrows] Hcreate.
  destruct (CreateTask_Ok _ _ _ _ Hcreate) as (_ & _ & -> & ->). simpl.
  assert (sql.tasks db !! sql.tasks_id_seq db = None) as Hfresh.
  { destruct (sql.tasks db !! sql.tasks_id_seq db) as [row|] eqn:Hrow; [|done].
    destruct (Hrows _ _ Hrow) as [? _]. lia. }
  split_and!; [done| |by apply map_size_insert_None].
  intros id row Hrow. rewrite lookup_insert_ne; [done|]. congruence.
Qed.

(** ** Update, in a consistent store *)

(** X13. In a consistent store, an update that succeeds keeps the id and
    created_at of the row and moves updated_at strictly forward; every other
    row is as it was. *)
Theorem UpdateTask_refreshes (id : Z) (req : UpdateTaskRequest.t)
    (db db' : sql.DB) (task : Task) :
  consistent db →
  service.UpdateTask R id req db = (Ok task, db') →
  ∃ row,
    sql.tasks db !! id = Some row ∧
    ID task = id ∧
    CreatedAt task = sql.created_at row ∧
    sql.updated_at row < UpdatedAt task ∧
    (∀ id', id' ≠ id → sql.tasks db' !! id' = sql.tasks db !! id').
Proof.
  intros [_ Hrows] Hupdate.
  destruct (UpdateTask_Ok _ _ _ _ _ Hupdate)
    as (row & _ & _ & Hrow & _ & -> & ->). simpl.
  exists row. destruct (Hrows _ _ Hrow) as (_ & _ & ?).
  split_and!; [done..|].
  intros id' Hid'. by rewrite lookup_insert_ne.
Qed.

(** ** The repository on a row that is not there *)


(** ** Which gateway operations a service operation calls *)

(** X15. Whatever the repository, a service operation calls only the
    gateway operation of its own kind, at most once; update alone makes two
    calls, the fetch and then at most one write, and the task it writes has
    the id and the timestamps of the task it fetched. *)
Theorem service_call_discipline {S : Type} (repo : TaskRepository S)
    (s : S) (calls : list Call) :
  (∀ req,
     let out := service.CreateTask (recording repo) req (s, calls) in
     out.2.2 = calls ∨ ∃ task, out.2.2 = calls ++ [CallCreate task]) ∧
  (∀ id,
     let out := service.GetTask (recording repo) id (s, calls) in
     out.2.2 = calls ∨ out.2.2 = calls ++ [CallGetByID id]) ∧
  (service.GetAllTasks (recording repo) (s, calls)).2.2
  = calls ++ [CallGetAll] ∧
  (∀ id req,
     let out := service.UpdateTask (recording repo) id req (s, calls) in
     out.2.2 = calls ∨ out.2.2 = calls ++ [CallGetByID id] ∨
     ∃ fetched task,
       (GetByID repo id s).1 = Ok fetched ∧
       ID task = ID fetched ∧ CreatedAt task = CreatedAt fetched ∧
       UpdatedAt task = UpdatedAt fetched ∧
       out.2.2 = calls ++ [CallGetByID id; CallUpdate task]) ∧
  (∀ id,
     let out := service.DeleteTask (recording repo) id (s, calls) in
     out.2.2 = calls ∨ out.2.2 = calls ++ [CallDelete id]).
Proof.
  split_and!.
  - intros req. run. destruct (String.eqb _ _); [by left|]. right.
    destruct (Create repo _ s) as [[task [err|]] s']; by eexists.
  - intros id. run. destruct (id <=? 0); [by left|]. right.
    by destruct (GetByID repo id s) as [[task|err] s'].
  - run. by destruct (GetAll repo s) as [[tasks|err] s'].
  - intros id req. run. destruct (id <=? 0); [by left|]. right.
    destruct (GetByID repo id s) as [[fetched|err] s'] eqn:Hget; [|by left].
    destruct (service.UpdateTask_apply fetched req) as [task|err] eqn:Happly;
      [|by left].
    right. exists fetched, task.
    destruct (UpdateTask_apply_Ok _ _ _ Happly) as [_ Htask].
    simpl. split_and!; [done|by subst task..|].
    destruct (Update repo task s') as [[task' [err|]] s'']; simpl;
      by rewrite <- app_assoc.
  - intros id. run. destruct (id <=? 0); [by left|]. right.
    by destruct (Delete repo id s) as [[err|] s'].
Qed.

(** ** The statuses the handlers answer with *)

Lemma handlers_GetTask_code {S : Type} (repo : TaskRepository S)
    (atoi : result Z) (s : S) :
  http.StatusCode (handlers.GetTask repo atoi s).1
  = match atoi with
    | Err _ => http.StatusBadRequest
    | Ok id =>
        match (service.GetTask repo id s).1 with
        | Ok _ => http.StatusOK
        | Err _ => http.StatusInternalServerError
        end
    end.
Proof.
  unfold handlers.GetTask. destruct atoi as [id|e]; [|done]. run.
  destruct (id <=? 0); [done|].
  destruct (GetByID repo id s) as [[task|err] s']; done.
Qed.

Lemma handlers_DeleteTask_code {S : Type} (repo : TaskRepository S)
    (atoi : result Z) (s : S) :
  http.StatusCode (handlers.DeleteTask repo atoi s).1
  = match atoi with
    | Err _ => http.StatusBadRequest
    | Ok id =>
        match (service.DeleteTask repo id s).1 with
        | None => http.StatusNoContent
        | Some _ => http.StatusInternalServerError
        end
    end.
Proof.
  unfold handlers.DeleteTask. destruct atoi as [id|e]; [|done]. run.
  destruct (id <=? 0); [done|].
  destruct (Delete repo id s) as [[err|] s']; done.
Qed.

Ltac status_iff :=
  split;
  [ first [ by intros [=]
          | by (intros _; eexists)
          | by (intros _; eexists; split; [|eassumption])
          | by (intros _; do 2 eexists; split; [|eassumption]) ]
  | first [ done
          | by intros (? & [=])
          | by (intros (? & [= <-] & ?); congruence)
          | by (intros (? & ? & [= <-] & ?); congruence) ] ].

(** X16. Whatever the repository, the get-by-id handler answers 400 exactly
    when the id did not parse, 200 exactly when the service returned a task,
    and 500 for every error of the service: its 404 branch is never
    taken. *)
Theorem handlers_GetTask_statuses {S : Type} (repo : TaskRepository S)
    (atoi : result Z) (s : S) :
  let code := http.StatusCode (handlers.GetTask repo atoi s).1 in
  (code = 400 ↔ ∃ e, atoi = Err e) ∧
  (code = 200 ↔
   ∃ id task, atoi = Ok id ∧ (service.GetTask repo id s).1 = Ok task) ∧
  (code = 500 ↔
   ∃ id err, atoi = Ok id ∧ (service.GetTask repo id s).1 = Err err) ∧
  code ≠ 404.
Proof.
  simpl. rewrite handlers_GetTask_code.
  unfold http.StatusBadRequest, http.StatusOK, http.StatusInternalServerError.
  destruct atoi as [id|e];
    [destruct (service.GetTask repo id s).1 as [task|err] eqn:Hres; simpl|];
    split_and!; try done; status_iff.
Qed.

(** X17. Whatever the repository, the delete handler answers 400 exactly
    when the id did not parse, 204 exactly when the service returned no
    error, and 500 for every error of the service: its 404 branch is never
    taken. *)
Theorem handlers_DeleteTask_statuses {S : Type} (repo : TaskRepository S)
    (atoi : result Z) (s : S) :
  let code := http.StatusCode (handlers.DeleteTask repo atoi s).1 in
  (code = 400 ↔ ∃ e, atoi = Err e) ∧
  (code = 204 ↔ ∃ id, atoi = Ok id ∧ (service.DeleteTask repo id s).1 = None) ∧
  (code = 500 ↔
   ∃ id err, atoi = Ok id ∧ (service.DeleteTask repo id s).1 = Some err) ∧
  code ≠ 404.
Proof.
  simpl. rewrite handlers_DeleteTask_code.
  unfold http.StatusBadRequest, http.StatusNoContent,
    http.StatusInternalServerError.
  destruct atoi as [id|e];
    [destruct (service.DeleteTask repo id s).1 as [err|] eqn:Hres; simpl|];
    split_and!; try done; status_iff.
Qed.

(** X18. Whatever the repository, a create request whose body decodes and
    whose title is empty is answered 500 with the text of the validation
    error; the repository receives no call and the store is left as it
    was. *)
Theorem handlers_CreateTask_empty_title {S : Type} (repo : TaskRepository S)
    (req : CreateTaskRequest.t) (s : S) (calls : list Call) :
  CreateTaskRequest.Title req = "" →
  handlers.CreateTask (recording repo) (Ok req) (s, calls)
  = (http.Error "failed to create task: title is required"
                http.StatusInternalServerError, (s, calls)).
Proof.
  intros Htitle. unfold handlers.CreateTask. run.
  by rewrite (eqb_empty _ Htitle).
Qed.

(** X19. Whatever the repository, an id that parses but is zero or negative
    is answered 500 by the get-by-id, update and delete handlers; the
    repository receives no call and the store is left as it was. *)
Theorem handlers_nonpositive_id {S : Type} (repo : TaskRepository S)
    (id : Z) (req : UpdateTaskRequest.t) (s : S) (calls : list Call) :
  id <= 0 →
  handlers.GetTask (recording repo) (Ok id) (s, calls)
  = (http.Error "failed to retrieve task: invalid task ID"
                http.StatusInternalServerError, (s, calls)) ∧
  handlers.UpdateTask (recording repo) (Ok id) (Ok req) (s, calls)
  = (http.Error "failed to update task: invalid task ID"
                http.StatusInternalServerError, (s, calls)) ∧
  handlers.DeleteTask (recording repo) (Ok id) (s, calls)
  = (http.Error "failed to delete task: invalid task ID"
                http.StatusInternalServerError, (s, calls)).
Proof.
  intros Hid. unfold handlers.GetTask, handlers.UpdateTask, handlers.DeleteTask.
  run. by rewrite (Zle_bool_nonpos _ Hid).
Qed.

(** ** The update handler on a store that serves requests *)

Lemma append_assoc (a b c : string) : (a +:+ b) +:+ c = a +:+ (b +:+ c).
Proof.
  induction a as [|x a IH]; [done|].
  change (String x ((a +:+ b) +:+ c) = String x (a +:+ (b +:+ c))).
  by f_equal.
Qed.

Lemma eqb_append_cancel (p a b : string) :
  String.eqb (p +:+ a) (p +:+ b) = String.eqb a b.
Proof.
  induction p as [|x p IH]; [done|].
  change (String.eqb (String x (p +:+ a)) (String x (p +:+ b))
          = String.eqb a b).
  simpl. by rewrite Ascii.eqb_refl.
Qed.

(** The text of the service's error for a missing row is neither of the two
    texts the update handler looks for. *)
Lemma UpdateTask_not_found_text (id : Z) :
  let text := Error (Errorf_w ("task with ID " +:+ itoa id +:+ " not found: ")
                              ErrTaskNotFound) in
  String.eqb text ("task with ID " +:+ itoa id +:+
                   " not found: sql: no rows in result set") = false ∧
  String.eqb text ("task with ID " +:+ itoa id +:+ " not found") = false ∧
  String.eqb text "invalid status value" = false.
Proof.
  cbv zeta. cbn [Error]. rewrite !append_assoc, !eqb_append_cancel. done.
Qed.

Lemma handlers_UpdateTask_missing (db : sql.DB) (id : Z)
    (req : UpdateTaskRequest.t) :
  0 < id → sql.failure db = None → sql.tasks db !! id = None →
  handlers.UpdateTask R (Ok id) (Ok req) db
  = (http.Error
       ("failed to update task: " +:+
        Error (Errorf_w ("task with ID " +:+ itoa id +:+ " not found: ")
                        ErrTaskNotFound))
       http.StatusInternalServerError, db).
Proof.
  intros Hid Hdb Hrow. unfold handlers.UpdateTask.
  unfold mbind, M_bind, mret, M_ret.
  assert (service.UpdateTask R id req db
          = (Err (Errorf_w ("task with ID " +:+ itoa id +:+ " not found: ")
                           ErrTaskNotFound), db)) as ->.
  { run. rewrite (Zle_bool_pos _ Hid).
    by rewrite (GetByID_missing _ _ Hdb Hrow). }
  destruct (UpdateTask_not_found_text id) as (-> & -> & ->). done.
Qed.

Lemma handlers_UpdateTask_rejected (db : sql.DB) (id : Z)
    (req : UpdateTaskRequest.t) (row : sql.Row) :
  0 < id → sql.failure db = None → sql.tasks db !! id = Some row →
  UpdateTaskRequest.Status req ≠ "" →
  ¬ in_enumeration (UpdateTaskRequest.Status req) →
  handlers.UpdateTask R (Ok id) (Ok req) db
  = (http.Error "invalid status value" http.StatusBadRequest, db).
Proof.
  intros Hid Hdb Hrow Hne Hnot. unfold handlers.UpdateTask. run.
  rewrite (Zle_bool_pos _ Hid), (GetByID_found _ _ _ Hdb Hrow).
  by rewrite (UpdateTask_apply_rejects _ _ Hne Hnot).
Qed.

Lemma handlers_UpdateTask_accepted (db : sql.DB) (id : Z)
    (req : UpdateTaskRequest.t) (row : sql.Row) :
  0 < id → sql.failure db = None → sql.tasks db !! id = Some row →
  UpdateTaskRequest.Status req = "" ∨
    in_enumeration (UpdateTaskRequest.Status req) →
  ∃ task db',
    service.UpdateTask R id req db = (Ok task, db') ∧
    handlers.UpdateTask R (Ok id) (Ok req) db
    = (http.mkResponse http.StatusOK (http.JSONTask task), db') ∧
    task = mkTask id
             (override (UpdateTaskRequest.Title req) (sql.title row))
             (override (UpdateTaskRequest.Description req)
                       (sql.description row))
             (override (UpdateTaskRequest.Status req) (sql.status row))
             (sql.created_at row) (sql.clock db) ∧
    db' = sql.mkDB
            (<[id := sql.mkRow (Title task) (Description task) (Status task)
                               (sql.created_at row) (sql.clock db)]>
               (sql.tasks db))
            (sql.tasks_id_seq db) (sql.clock db + 1) None.
Proof.
  intros Hid Hdb Hrow Hstatus.
  assert (∃ task db', service.UpdateTask R id req db = (Ok task, db') ∧
            task = mkTask id
             (override (UpdateTaskRequest.Title req) (sql.title row))
             (override (UpdateTaskRequest.Description req)
                       (sql.description row))
             (override (UpdateTaskRequest.Status req) (sql.status row))
             (sql.created_at row) (sql.clock db) ∧
            db' = sql.mkDB
                    (<[id := sql.mkRow (Title task) (Description task)
                                       (Status task) (sql.created_at row)
                                       (sql.clock db)]> (sql.tasks db))
                    (sql.tasks_id_seq db) (sql.clock db + 1) None)
    as (task & db' & Hservice & Htask & Hdb').
  { eexists _, _. split_and!.
    - run. rewrite (Zle_bool_pos _ Hid), (GetByID_found _ _ _ Hdb Hrow).
      rewrite (UpdateTask_apply_accepts _ _ Hstatus). simpl.
      by rewrite (Update_found db _ row Hdb) by done.
    - done.
    - done. }
  exists task, db'. split_and!; try done.
  unfold handlers.UpdateTask, mbind, M_bind, mret, M_ret. by rewrite Hservice.
Qed.

(** X20. On a store that serves requests, for a positive id and a body that
    decodes, the update handler answers 500 when no row has the id, 400 with
    the text "invalid status value" when the row exists and the requested
    status is non-empty and outside the enumeration, both without changing
    the store, and 200 with the task whenever the service returned one. *)
Theorem handlers_UpdateTask_responses (db : sql.DB) (id : Z)
    (req : UpdateTaskRequest.t) :
  0 < id → sql.failure db = None →
  let out := handlers.UpdateTask R (Ok id) (Ok req) db in
  (sql.tasks db !! id = None →
   http.StatusCode out.1 = http.StatusInternalServerError ∧ out.2 = db) ∧
  (is_Some (sql.tasks db !! id) →
   UpdateTaskRequest.Status req ≠ "" →
   ¬ in_enumeration (UpdateTaskRequest.Status req) →
   out = (http.Error "invalid status value" http.StatusBadRequest, db)) ∧
  (∀ task db',
     service.UpdateTask R id req db = (Ok task, db') →
     out = (http.mkResponse http.StatusOK (http.JSONTask task), db')).
Proof.
  intros Hid Hdb. cbv zeta. split_and!.
  - intros Hrow. by rewrite (handlers_UpdateTask_missing _ _ _ Hid Hdb Hrow).
  - intros [row Hrow] Hne Hnot.
    by apply (handlers_UpdateTask_rejected _ _ _ row).
  - intros task db' Hservice.
    unfold handlers.UpdateTask, mbind, M_bind, mret, M_ret.
    by rewrite Hservice.
Qed.

(** ** A task from creation to deletion *)

Lemma serve_cons {S : Type} (repo : TaskRepository S) (r : main.Request)
    (rs : list main.Request) (s : S) :
  main.serve repo (r :: rs) s
  = let (w, s1) := main.ServeHTTP repo r s in
    let (ws, s2) := main.serve repo rs s1 in (w :: ws, s2).
Proof. done. Qed.

Lemma handlers_CreateTask_healthy (req : CreateTaskRequest.t) (db : sql.DB) :
  sql.failure db = None → CreateTaskRequest.Title req ≠ "" →
  handlers.CreateTask R (Ok req) db
  = (http.mkResponse http.StatusCreated
       (http.JSONTask (mkTask (sql.tasks_id_seq db)
                              (CreateTaskRequest.Title req)
                              (CreateTaskRequest.Description req) "pending"
                              (sql.clock db) (sql.clock db))),
     sql.mkDB (<[sql.tasks_id_seq db :=
                   sql.mkRow (CreateTaskRequest.Title req)
                             (CreateTaskRequest.Description req)
                             "pending" (sql.clock db) (sql.clock db)]>
                 (sql.tasks db))
              (sql.tasks_id_seq db + 1) (sql.clock db + 1) None).
Proof.
  intros Hdb Htitle. unfold handlers.CreateTask. run.
  rewrite (eqb_nonempty _ Htitle). by rewrite (Create_healthy _ _ Hdb).
Qed.

Lemma handlers_GetTask_found (db : sql.DB) (id : Z) (row : sql.Row) :
  0 < id → sql.failure db = None → sql.tasks db !! id = Some row →
  handlers.GetTask R (Ok id) db
  = (http.mkResponse http.StatusOK (http.JSONTask (sql.columns (id, row))), db).
Proof.
  intros Hid Hdb Hrow. unfold handlers.GetTask. run.
  rewrite (Zle_bool_pos _ Hid). by rewrite (GetByID_found _ _ _ Hdb Hrow).
Qed.

Lemma handlers_GetTask_missing (db : sql.DB) (id : Z) :
  0 < id → sql.failure db = None → sql.tasks db !! id = None →
  handlers.GetTask R (Ok id) db
  = (http.Error
       "failed to retrieve task: failed to get task from repository: task not found"
       http.StatusInternalServerError, db).
Proof.
  intros Hid Hdb Hrow. unfold handlers.GetTask. run.
  rewrite (Zle_bool_pos _ Hid). by rewrite (GetByID_missing _ _ Hdb Hrow).
Qed.

Lemma handlers_DeleteTask_found (db : sql.DB) (id : Z) (row : sql.Row) :
  0 < id → sql.failure db = None → sql.tasks db !! id = Some row →
  handlers.DeleteTask R (Ok id) db
  = (http.mkResponse http.StatusNoContent http.NoBody,
     sql.with_tasks db (delete id (sql.tasks db))).
Proof.
  intros Hid Hdb Hrow. unfold handlers.DeleteTask. run.
  rewrite (Zle_bool_pos _ Hid). by rewrite (Delete_found _ _ _ Hdb Hrow).
Qed.

(** X21. The session of the end-to-end test, on any consistent store that
    serves requests and whose sequence is within the id column, for any
    title that is not empty, fits the title column and, like the
    description, is plain text: POST answers 201 with a pending task under
    the next id of the sequence; GET of that id answers 200 with the same
    task; PUT with only status "completed" answers 200 with the same title
    and description, the new status and a later updated_at; DELETE answers
    204; the last GET answers 500.  The table ends as it began. *)
Theorem task_lifecycle (req : CreateTaskRequest.t) (db : sql.DB) :
  sql.failure db = None → consistent db → int4 (sql.tasks_id_seq db) →
  CreateTaskRequest.Title req ≠ "" →
  fits_title (CreateTaskRequest.Title req) →
  plain (CreateTaskRequest.Title req) →
  plain (CreateTaskRequest.Description req) →
  let id := sql.tasks_id_seq db in
  let created :=
    mkTask id (CreateTaskRequest.Title req) (CreateTaskRequest.Description req)
           "pending" (sql.clock db) (sql.clock db) in
  let updated :=
    mkTask id (CreateTaskRequest.Title req) (CreateTaskRequest.Description req)
           "completed" (sql.clock db) (sql.clock db + 1) in
  ∃ last db',
    main.serve R
      [main.POST_tasks (Ok req);
       main.GET_task (Ok id);
       main.PUT_task (Ok id) (Ok (UpdateTaskRequest.mk "" "" "completed"));
       main.DELETE_task (Ok id);
       main.GET_task (Ok id)] db
    = ([http.mkResponse http.StatusCreated (http.JSONTask created);
        http.mkResponse http.StatusOK (http.JSONTask created);
        http.mkResponse http.StatusOK (http.JSONTask updated);
        http.mkResponse http.StatusNoContent http.NoBody;
        last], db') ∧
    http.StatusCode last = http.StatusInternalServerError ∧
    sql.tasks db' = sql.tasks db.
Proof.
  intros Hdb [Hseq Hrows] _ Htitle _ _ _ id created updated.
  assert (sql.tasks db !! id = None) as Hfresh.
  { destruct (sql.tasks db !! id) as [row|] eqn:Hrow; [|done].
    destruct (Hrows _ _ Hrow) as [? _]. unfold id in *. lia. }
  set (row1 := sql.mkRow (CreateTaskRequest.Title req)
                         (CreateTaskRequest.Description req) "pending"
                         (sql.clock db) (sql.clock db)).
  set (row2 := sql.mkRow (CreateTaskRequest.Title req)
                         (CreateTaskRequest.Description req) "completed"
                         (sql.clock db) (sql.clock db + 1)).
  set (db1 := sql.mkDB (<[id := row1]> (sql.tasks db)) (id + 1)
                       (sql.clock db + 1) None).
  set (db2 := sql.mkDB (<[id := row2]> (sql.tasks db1)) (id + 1)
                       (sql.clock db + 1 + 1) None).
  set (db3 := sql.with_tasks db2 (delete id (sql.tasks db2))).
  assert (sql.tasks db1 !! id = Some row1) as Hrow1 by apply lookup_insert_eq.
  assert (sql.tasks db2 !! id = Some row2) as Hrow2 by apply lookup_insert_eq.
  assert (sql.tasks db3 !! id = None) as Hrow3 by apply lookup_delete_eq.
  eexists _, db3.
  rewrite serve_cons. cbn [main.ServeHTTP].
  rewrite (handlers_CreateTask_healthy req db Hdb Htitle). fold id row1 db1.
  rewrite serve_cons. cbn [main.ServeHTTP].
  rewrite (handlers_GetTask_found db1 id row1 Hseq eq_refl Hrow1).
  rewrite serve_cons. cbn [main.ServeHTTP].
  assert (handlers.UpdateTask R (Ok id)
            (Ok (UpdateTaskRequest.mk "" "" "completed")) db1
          = (http.mkResponse http.StatusOK (http.JSONTask updated), db2))
    as ->.
  { destruct (handlers_UpdateTask_accepted db1 id
                (UpdateTaskRequest.mk "" "" "completed") row1 Hseq eq_refl Hrow1)
      as (task & db2' & _ & -> & -> & ->); [right; right; by right|done]. }
  rewrite serve_cons. cbn [main.ServeHTTP].
  rewrite (handlers_DeleteTask_found db2 id row2 Hseq eq_refl Hrow2).
  fold db3.
  rewrite serve_cons. cbn [main.ServeHTTP].
  rewrite (handlers_GetTask_missing db3 id Hseq eq_refl Hrow3).
  split_and!; [done|done|].
  simpl. rewrite !delete_insert_eq. by apply delete_id.
Qed.

(** ** Waiting for the server *)

Lemma waitForServer_loop_Some (probe : nat → bool) (remaining i0 i : nat) :
  e2e.waitForServer_loop probe i0 remaining = Some i ↔
  (i0 ≤ i < i0 + remaining)%nat ∧ probe i = true ∧
  ∀ j, (i0 ≤ j < i)%nat → probe j = false.
Proof.
  revert i0. induction remaining as [|remaining IH]; intros i0; simpl.
  - split; [done|]. intros ([? ?] & _). lia.
  - destruct (probe i0) eqn:Hprobe.
    + split.
      * intros [= <-]. split_and!; [lia..|done|]. intros j ?. lia.
      * intros (Hrange & Hi & Hbefore).
        destruct (decide (i = i0)) as [->|Hne]; [done|].
        rewrite Hbefore in Hprobe; [done|lia].
    + rewrite IH. split.
      * intros (Hrange & Hi & Hbefore). split_and!; [lia..|done|].
        intros j Hj. destruct (decide (j = i0)) as [->|Hne]; [done|].
        apply Hbefore. lia.
      * intros (Hrange & Hi & Hbefore).
        assert (i ≠ i0) by congruence.
        split_and!; [lia..|done|]. intros j Hj. apply Hbefore. lia.
Qed.

Lemma waitForServer_loop_None (probe : nat → bool) (remaining i0 : nat) :
  e2e.waitForServer_loop probe i0 remaining = None ↔
  ∀ j, (i0 ≤ j < i0 + remaining)%nat → probe j = false.
Proof.
  revert i0. induction remaining as [|remaining IH]; intros i0; simpl.
  - split; [|done]. intros _ j ?. lia.
  - destruct (probe i0) eqn:Hprobe.
    + split; [done|]. intros Hall. rewrite Hall in Hprobe; [done|lia].
    + rewrite IH. split.
      * intros Hall j Hj. destruct (decide (j = i0)) as [->|Hne]; [done|].
        apply Hall. lia.
      * intros Hall j Hj. apply Hall. lia.
Qed.

(** X22. [waitForServer] returns at the first of its fifteen attempts whose
    health probe succeeds, having seen every earlier probe fail; it reaches
    [t.Fatal] exactly when all fifteen probes fail. *)
Theorem waitForServer_first_success (probe : nat → bool) :
  (∀ i, e2e.waitForServer probe = Some i ↔
        (i < 15)%nat ∧ probe i = true ∧ ∀ j, (j < i)%nat → probe j = false) ∧
  (e2e.waitForServer probe = None ↔ ∀ j, (j < 15)%nat → probe j = false).
Proof.
  unfold e2e.waitForServer. split.
  - intros i. rewrite waitForServer_loop_Some. split.
    + intros (? & ? & Hbefore). split_and!; [lia|done|].
      intros j ?. apply Hbefore. lia.
    + intros (? & ? & Hbefore). split_and!; [lia..|done|].
      intros j ?. apply Hbefore. lia.
  - rewrite waitForServer_loop_None. split.
    + intros Hall j ?. apply Hall. lia.
    + intros Hall j ?. apply Hall. lia.
Qed.

(** ** Where a not-found error comes from *)

(** X23. Whatever the repository, the service never makes a not-found error
    of its own: when [errors.Is] finds [ErrTaskNotFound] in the error of a
    service operation, it finds it in the error a gateway call of that
    operation returned.  Validation errors are never not-found errors. *)
Theorem not_found_comes_from_gateway {S : Type} (repo : TaskRepository S)
    (s : S) (err : error) :
  Is err ErrTaskNotFound = true →
  (∀ req, (service.CreateTask repo req s).1 = Err err →
     ∃ task cause,
       (Create repo task s).1.2 = Some cause ∧
       Is cause ErrTaskNotFound = true) ∧
  (∀ id, (service.GetTask repo id s).1 = Err err →
     ∃ cause,
       (GetByID repo id s).1 = Err cause ∧ Is cause ErrTaskNotFound = true) ∧
  ((service.GetAllTasks repo s).1 = Err err →
     ∃ cause,
       (GetAll repo s).1 = Err cause ∧ Is cause ErrTaskNotFound = true) ∧
  (∀ id req, (service.UpdateTask repo id req s).1 = Err err →
     ∃ cause,
       Is cause ErrTaskNotFound = true ∧
       ((GetByID repo id s).1 = Err cause ∨
        ∃ task, (Update repo task (GetByID repo id s).2).1.2 = Some cause)) ∧
  (∀ id, (service.DeleteTask repo id s).1 = Some err →
     ∃ cause,
       (Delete repo id s).1 = Some cause ∧ Is cause ErrTaskNotFound = true).
Proof.
  intros His. split_and!.
  - intros req. run. destruct (String.eqb _ _); [by intros [= <-]|].
    destruct (Create repo _ s) as [[task [cause|]] s'] eqn:Hcall; simpl;
      [|done].
    intros [= <-]. rewrite Is_Errorf_w_ErrTaskNotFound in His.
    eexists _, cause. by rewrite Hcall.
  - intros id. run. destruct (id <=? 0); [by intros [= <-]|].
    destruct (GetByID repo id s) as [[task|cause] s']; simpl; [done|].
    intros [= <-]. rewrite Is_Errorf_w_ErrTaskNotFound in His. by exists cause.
  - run. destruct (GetAll repo s) as [[tasks|cause] s']; simpl; [done|].
    intros [= <-]. rewrite Is_Errorf_w_ErrTaskNotFound in His. by exists cause.
  - intros id req. run. destruct (id <=? 0); [by intros [= <-]|].
    destruct (GetByID repo id s) as [[fetched|cause] s']; simpl.
    + destruct (service.UpdateTask_apply fetched req) as [task|e] eqn:Happly.
      * simpl.
        destruct (Update repo task s') as [[task' [cause|]] s''] eqn:Hcall;
          simpl; [|done].
        intros [= <-]. rewrite Is_Errorf_w_ErrTaskNotFound in His.
        exists cause. split; [done|]. right. exists task. by rewrite Hcall.
      * simpl. intros [= <-]. revert Happly.
        unfold service.UpdateTask_apply.
        destruct (negb _); [|done].
        destruct (_ && _); [|done]. by intros [= <-].
    + intros [= <-]. rewrite Is_Errorf_w_ErrTaskNotFound in His.
      exists cause. split; [done|by left].
  - intros id. run. destruct (id <=? 0); [by intros [= <-]|].
    destruct (Delete repo id s) as [[cause|] s']; simpl; [|done].
    intros [= <-]. rewrite Is_Errorf_w_ErrTaskNotFound in His. by exists cause.
Qed.

Lemma not_found_comes_from_gateway_witness :
  let err := Errorf_w "failed to get task from repository: "
               ErrTaskNotFound in
  (Is err ErrTaskNotFound = true ∧
   (service.GetTask R 999 empty_db).1 = Err err) ∧
  ∃ cause,
    (GetByID R 999 empty_db).1 = Err cause ∧ Is cause ErrTaskNotFound = true.
Proof.
  intros err. split; [split; reflexivity|].
  destruct (not_found_comes_from_gateway R empty_db err eq_refl)
    as (_ & Hget & _).
  apply (Hget 999). reflexivity.
Defined.

(** ** The further properties at concrete requests *)

Lemma empty_db_rows_valid : rows_valid empty_db.
Proof. apply map_Forall_empty. Qed.

Lemma one_task_db_consistent : consistent one_task_db.
Proof.
  split; [done|]. apply map_Forall_singleton.
  unfold row_consistent. simpl. lia.
Qed.

Lemma serve_rows_valid_witness :
  rows_valid empty_db ∧
  rows_valid
    (main.serve R
       [main.POST_tasks (Ok (CreateTaskRequest.mk "" "no title"));
        main.POST_tasks (Ok (CreateTaskRequest.mk "Task One" "Desc One"));
        main.PUT_task (Ok 1) (Ok (UpdateTaskRequest.mk "" "" "bogus"));
        main.PUT_task (Ok 1) (Ok (UpdateTaskRequest.mk "" "" "completed"))]
       empty_db).2.
Proof.
  split; [exact empty_db_rows_valid|].
  apply serve_rows_valid. exact empty_db_rows_valid.
Defined.

Lemma serve_consistent_witness :
  consistent one_task_db ∧
  consistent
    (main.serve R
       [main.POST_tasks (Ok (CreateTaskRequest.mk "Task Two" "Desc Two"));
        main.PUT_task (Ok 1) (Ok (UpdateTaskRequest.mk "" "" "completed"));
        main.DELETE_task (Ok 2)]
       one_task_db).2.
Proof.
  split; [exact one_task_db_consistent|].
  apply serve_consistent. exact one_task_db_consistent.
Defined.

Lemma failing_store_answers_errors_witness :
  (sql.failure failing_db = Some (New "database connection failed") ∧
   main.DELETE_task (Ok 1) ≠ main.GET_health) ∧
  400 <= http.StatusCode
           (main.ServeHTTP R (main.DELETE_task (Ok 1)) failing_db).1 ∧
  (main.ServeHTTP R (main.DELETE_task (Ok 1)) failing_db).2 = failing_db.
Proof.
  split; [split; [reflexivity|discriminate]|].
  apply (failing_store_answers_errors failing_db
           (New "database connection failed")); [reflexivity|discriminate].
Defined.

Lemma UpdateTask_apply_idempotent_witness :
  let req := UpdateTaskRequest.mk "Updated Title" "" "in_progress" in
  let task := mkTask 1 "Updated Title" "Original Desc" "in_progress" 10 10 in
  service.UpdateTask_apply service_test.existingTask req = Ok task ∧
  service.UpdateTask_apply task req = Ok task ∧
  ID task = ID service_test.existingTask ∧
  CreatedAt task = CreatedAt service_test.existingTask ∧
  UpdatedAt task = UpdatedAt service_test.existingTask.
Proof.
  intros req task. split; [reflexivity|].
  apply (UpdateTask_apply_idempotent service_test.existingTask task req).
  reflexivity.
Defined.

Lemma UpdateTask_apply_never_clears_witness :
  let req := UpdateTaskRequest.mk "" "" "completed" in
  let task := mkTask 1 "Original Title" "Original Desc" "completed" 10 10 in
  service.UpdateTask_apply service_test.existingTask req = Ok task ∧
  (Title service_test.existingTask ≠ "" → Title task ≠ "") ∧
  (Description service_test.existingTask ≠ "" → Description task ≠ "") ∧
  (in_enumeration (Status service_test.existingTask) →
   in_enumeration (Status task)).
Proof.
  intros req task. split; [reflexivity|].
  apply (UpdateTask_apply_never_clears service_test.existingTask task req).
  reflexivity.
Defined.

Lemma CreateTask_then_GetTask_witness :
  let req := CreateTaskRequest.mk "Original Title" "Original Desc" in
  let task := mkTask 1 "Original Title" "Original Desc" "pending" 100 100 in
  (0 < sql.tasks_id_seq empty_db ∧
   fits_title (CreateTaskRequest.Title req) ∧
   service.CreateTask R req empty_db = (Ok task, one_task_db)) ∧
  service.GetTask R (ID task) one_task_db = (Ok task, one_task_db).
Proof.
  intros req task.
  assert (fits_title (CreateTaskRequest.Title req)) as Hfits
    by (unfold fits_title; simpl; lia).
  split; [split_and!; [reflexivity|exact Hfits|reflexivity]|].
  apply (CreateTask_then_GetTask req empty_db one_task_db task);
    [reflexivity|exact Hfits|reflexivity].
Defined.


Lemma DeleteTask_then_gone_witness :
  let db' := (service.DeleteTask R 1 one_task_db).2 in
  service.DeleteTask R 1 one_task_db = (None, db') ∧
  (∃ err, service.GetTask R 1 db' = (Err err, db') ∧
          Is err ErrTaskNotFound = true) ∧
  (∃ err, service.DeleteTask R 1 db' = (Some err, db')) ∧
  (∀ id', id' ≠ 1 → sql.tasks db' !! id' = sql.tasks one_task_db !! id').
Proof.
  intros db'. split; [reflexivity|].
  apply (DeleteTask_then_gone 1 one_task_db db'). reflexivity.
Defined.

Lemma GetAllTasks_agrees_with_GetByID_witness :
  sql.failure one_task_db = None ∧
  ∃ tasks,
    service.GetAllTasks R one_task_db = (Ok (Some tasks), one_task_db) ∧
    length tasks = 1%nat.
Proof.
  split; [reflexivity|].
  destruct (GetAllTasks_agrees_with_GetByID one_task_db eq_refl)
    as (tasks & Hout & _ & _ & Hlength).
  exists tasks. split; [exact Hout|]. rewrite Hlength. reflexivity.
Defined.

Lemma CreateTask_fresh_id_witness :
  let req := CreateTaskRequest.mk "Task Two" "Desc Two" in
  let out := service.CreateTask R req one_task_db in
  let task := mkTask 2 "Task Two" "Desc Two" "pending" 101 101 in
  (consistent one_task_db ∧ out = (Ok task, out.2)) ∧
  sql.tasks one_task_db !! ID task = None ∧
  (∀ id row, sql.tasks one_task_db !! id = Some row →
             sql.tasks out.2 !! id = Some row) ∧
  size (sql.tasks out.2) = Datatypes.S (size (sql.tasks one_task_db)).
Proof.
  intros req out task.
  split; [split; [exact one_task_db_consistent|reflexivity]|].
  apply (CreateTask_fresh_id req one_task_db out.2 task);
    [exact one_task_db_consistent|reflexivity].
Defined.

Lemma UpdateTask_refreshes_witness :
  let req := UpdateTaskRequest.mk "" "" "in_progress" in
  let out := service.UpdateTask R 1 req one_task_db in
  let task := mkTask 1 "Original Title" "Original Desc" "in_progress"
                     100 101 in
  (consistent one_task_db ∧ out = (Ok task, out.2)) ∧
  ∃ row,
    sql.tasks one_task_db !! 1 = Some row ∧
    ID task = 1 ∧
    CreatedAt task = sql.created_at row ∧
    sql.updated_at row < UpdatedAt task ∧
    (∀ id', id' ≠ 1 → sql.tasks out.2 !! id' = sql.tasks one_task_db !! id').
Proof.
  intros req out task.
  split; [split; [exact one_task_db_consistent|reflexivity]|].
  apply (UpdateTask_refreshes 1 req one_task_db out.2 task);
    [exact one_task_db_consistent|reflexivity].
Defined.


Lemma handlers_CreateTask_empty_title_witness :
  CreateTaskRequest.Title (CreateTaskRequest.mk "" "Test Description") = "" ∧
  handlers.CreateTask (recording R)
    (Ok (CreateTaskRequest.mk "" "Test Description")) (empty_db, [])
  = (http.Error "failed to create task: title is required"
                http.StatusInternalServerError, (empty_db, [])).
Proof.
  split; [reflexivity|]. apply handlers_CreateTask_empty_title. reflexivity.
Defined.

Lemma handlers_nonpositive_id_witness :
  0 <= 0 ∧
  handlers.GetTask (recording R) (Ok 0) (one_task_db, [])
  = (http.Error "failed to retrieve task: invalid task ID"
                http.StatusInternalServerError, (one_task_db, [])) ∧
  handlers.UpdateTask (recording R) (Ok 0)
    (Ok (UpdateTaskRequest.mk "X" "" "")) (one_task_db, [])
  = (http.Error "failed to update task: invalid task ID"
                http.StatusInternalServerError, (one_task_db, [])) ∧
  handlers.DeleteTask (recording R) (Ok 0) (one_task_db, [])
  = (http.Error "failed to delete task: invalid task ID"
                http.StatusInternalServerError, (one_task_db, [])).
Proof. split; [lia|]. apply handlers_nonpositive_id. lia. Defined.

Lemma handlers_UpdateTask_responses_witness :
  (0 < 1 ∧ sql.failure one_task_db = None) ∧
  handlers.UpdateTask R (Ok 1) (Ok (UpdateTaskRequest.mk "X" "" "bogus"))
                      one_task_db
  = (http.Error "invalid status value" http.StatusBadRequest, one_task_db).
Proof.
  split; [split; [lia|reflexivity]|].
  apply (handlers_UpdateTask_responses one_task_db 1
           (UpdateTaskRequest.mk "X" "" "bogus")); [lia|reflexivity| | |].
  - eexists. reflexivity.
  - discriminate.
  - unfold in_enumeration. simpl. intros [H|[H|H]]; discriminate.
Defined.

Lemma task_lifecycle_witness :
  let req := CreateTaskRequest.mk "E2E Test Task"
               "A task created during end-to-end testing." in
  (sql.failure one_task_db = None ∧ consistent one_task_db ∧
   int4 (sql.tasks_id_seq one_task_db) ∧
   CreateTaskRequest.Title req ≠ "" ∧
   fits_title (CreateTaskRequest.Title req) ∧
   plain (CreateTaskRequest.Title req) ∧
   plain (CreateTaskRequest.Description req)) ∧
  http.StatusCode <$>
    (main.serve R
       [main.POST_tasks (Ok req);
        main.GET_task (Ok 2);
        main.PUT_task (Ok 2) (Ok (UpdateTaskRequest.mk "" "" "completed"));
        main.DELETE_task (Ok 2);
        main.GET_task (Ok 2)] one_task_db).1
  = [201; 200; 200; 204; 500].
Proof.
  intros req.
  assert (int4 (sql.tasks_id_seq one_task_db)) as Hrange
    by (unfold int4; simpl; lia).
  assert (fits_title (CreateTaskRequest.Title req)) as Hfits
    by (unfold fits_title; simpl; lia).
  split.
  { split_and!; [reflexivity|exact one_task_db_consistent|exact Hrange
                |discriminate|exact Hfits|reflexivity|reflexivity]. }
  destruct (task_lifecycle req one_task_db)
    as (last & db' & Hout & Hlast & _);
    [reflexivity|exact one_task_db_consistent|exact Hrange|discriminate
    |exact Hfits|reflexivity|reflexivity|].
  cbv zeta in Hout. unfold one_task_db in *. cbn [sql.tasks_id_seq] in Hout.
  rewrite Hout. cbn [fst fmap list_fmap http.StatusCode]. by rewrite Hlast.
Defined.
